(** * Google tools: a shallow embedding of the Sheets and Gmail helpers

    The development follows the three Python modules of the package:
    [sheets_client.py], [sheets_helper.py] and [gmail_client.py].  Python
    strings are sequences of code points, dictionaries are finite maps,
    and every function that touches the outside world (environment,
    credential files, the two remote services) runs in a small
    reader/writer/exception monad that logs every outward call. *)

From Stdlib Require Import Ascii String ZArith NArith DecimalString.
From stdpp Require Import gmap list fin_maps.

Local Open Scope Z_scope.
Local Open Scope nat_scope.
Local Open Scope list_scope.

(** ** Python values *)

(** A Python [str] is a sequence of Unicode code points: [len] is [length]
    and the slice [s[:n]] is [take n s]. *)
Abbreviation pystr := (list N).

(** Literals are written as Rocq strings (UTF-8 bytes) and decoded to code
    points.  [need] continuation bytes are still expected for the code
    point accumulated in [acc]. *)
Fixpoint utf8_decode (bs : list N) (acc : N) (need : nat) : pystr :=
  match bs with
  | [] => []
  | b :: bs' =>
      match need with
      | S k =>
          let acc' := (acc * 64 + b mod 64)%N in
          match k with
          | O => acc' :: utf8_decode bs' 0%N O
          | S _ => utf8_decode bs' acc' k
          end
      | O =>
          if (b <? 128)%N then b :: utf8_decode bs' 0%N O
          else if (b <? 224)%N then utf8_decode bs' (b mod 32)%N 1
          else if (b <? 240)%N then utf8_decode bs' (b mod 16)%N 2
          else utf8_decode bs' (b mod 8)%N 3
      end
  end.

Definition utf8 (s : string) : pystr :=
  utf8_decode (map N_of_ascii (list_ascii_of_string s)) 0%N O.

(** The double quote and the line feed, which the literals below splice in. *)
Definition dq : pystr := [34%N].
Definition nl : pystr := [10%N].

(** The values an article field or a result dictionary holds ([Any] in the
    source's annotations): [None], booleans, integers and strings. *)
Inductive pyval : Type :=
  | PNone
  | PBool (b : bool)
  | PInt (z : Z)
  | PStr (s : pystr).

#[global] Instance pyval_eq_dec : EqDecision pyval.
Proof. solve_decision. Defined.

(** [str(x)], which is also what an f-string placeholder [{x}] renders. *)
Definition py_format (v : pyval) : pystr :=
  match v with
  | PNone => utf8 "None"
  | PBool true => utf8 "True"
  | PBool false => utf8 "False"
  | PInt z => utf8 (NilZero.string_of_int (Z.to_int z))
  | PStr s => s
  end.

(** Truth value of an [Optional[str]]: [None] and the empty string are
    false. *)
Definition truthy (o : option pystr) : bool :=
  match o with
  | Some (_ :: _) => true
  | _ => false
  end.

(** [a or b] on [Optional[str]]. *)
Definition py_or (a b : option pystr) : option pystr :=
  if truthy a then a else b.

(** [d.get(key, default)]. *)
Definition dict_get (d : gmap pystr pyval) (key : pystr) (dflt : pyval) : pyval :=
  default dflt (d !! key).

(** [enumerate(l, start)]. *)
Fixpoint enumerate {A : Type} (start : nat) (l : list A) : list (nat * A) :=
  match l with
  | [] => []
  | x :: l' => (start, x) :: enumerate (S start) l'
  end.

(** [s * n] for a string [s]. *)
Fixpoint str_mul (s : pystr) (n : nat) : pystr :=
  match n with
  | O => []
  | S n' => s ++ str_mul s n'
  end.

(** Keys of an article record. *)
Definition k_title : pystr := utf8 "title".
Definition k_source : pystr := utf8 "source".
Definition k_published_at : pystr := utf8 "published_at".
Definition k_url : pystr := utf8 "url".
Definition k_raw_summary : pystr := utf8 "raw_summary".

(** ** gmail_client.py: the two body builders *)

(** The opening literal of [_build_html_body]. *)
Definition html_open : pystr :=
  utf8 "
    <html>
      <head>
        <style>
          body { font-family: Arial, sans-serif; line-height: 1.6; color: #333; }
          h1 { color: #2c3e50; border-bottom: 3px solid #3498db; padding-bottom: 10px; }
          .summary { background-color: #f8f9fa; padding: 15px; margin: 20px 0; border-radius: 5px; border-left: 4px solid #3498db; }
          .article { margin: 20px 0; padding: 15px; border-left: 3px solid #3498db; background-color: #f9f9f9; }
          .article h3 { margin: 0 0 8px 0; color: #2c3e50; }
          .meta { color: #7f8c8d; font-size: 0.9em; margin: 5px 0; }
          .summary-text { color: #555; margin: 10px 0; }
          a { color: #3498db; text-decoration: none; }
          a:hover { text-decoration: underline; }
          .button { display: inline-block; padding: 10px 20px; background-color: #3498db; color: white; text-decoration: none; border-radius: 5px; margin: 10px 0; }
        </style>
      </head>
      <body>
        <h1>📰 新闻日报</h1>" ++ nl ++ utf8 "        " ++ nl ++ utf8 "        <div class=" ++ dq ++ utf8 "summary" ++ dq ++ utf8 ">
          <strong>📊 本期摘要</strong><br>
    ".

(** The closing literal of [_build_html_body]. *)
Definition html_close : pystr :=
  utf8 "
      </body>
    </html>
    ".

(** The f-string in the [for] loop of [_build_html_body]. *)
Definition html_block (i : nat) (title source published_at url summary : pyval)
    : pystr :=
  utf8 "
        <div class=" ++ dq ++ utf8 "article" ++ dq ++ utf8 ">
          <h3>" ++ py_format (PInt (Z.of_nat i)) ++ utf8 ". " ++ py_format title ++ utf8 "</h3>
          <div class=" ++ dq ++ utf8 "meta" ++ dq ++ utf8 ">
            📍 来源: <strong>" ++ py_format source ++ utf8 "</strong> | 🕐 发布时间: " ++ py_format published_at ++ utf8 "
          </div>
          <div class=" ++ dq ++ utf8 "summary-text" ++ dq ++ utf8 ">" ++ py_format summary ++ utf8 "</div>
          <a href=" ++ dq ++ py_format url ++ dq ++ utf8 ">阅读全文 →</a>
        </div>
        ".

(** The body of the [for] loop of [_build_html_body]: the text added for
    the article numbered [i]. *)
Definition html_article (i : nat) (article : gmap pystr pyval) : pystr :=
  let title := dict_get article k_title (PStr (utf8 "无标题")) in
  let source := dict_get article k_source (PStr (utf8 "未知来源")) in
  let published_at := dict_get article k_published_at (PStr (utf8 "N/A")) in
  let url := dict_get article k_url (PStr (utf8 "#")) in
  let summary := dict_get article k_raw_summary (PStr (utf8 "暂无摘要")) in
  html_block i title source published_at url summary.

(** The notice added when more than ten articles are supplied. *)
Definition html_overflow (n : nat) : pystr :=
  utf8 "
        <div class=" ++ dq ++ utf8 "summary" ++ dq ++ utf8 ">
          <strong>📌 注意:</strong> 为了邮件简洁，仅显示前 10 条新闻。
          完整的 " ++ py_format (PInt (Z.of_nat n)) ++ utf8 " 条新闻请查看 Google Sheets。
        </div>
        ".

(** [_build_html_body] up to the loop: the summary box, the link to the
    sheet and the heading. *)
Definition html_head (articles : list (gmap pystr pyval))
    (time_window sheet_url : option pystr) : pystr :=
  let html := html_open in
  let html := html ++ utf8 "          • 新闻总数: <strong>"
                   ++ py_format (PInt (Z.of_nat (length articles)))
                   ++ utf8 "</strong><br>" ++ nl in
  let html :=
    if truthy time_window
    then html ++ utf8 "          • 时间范围: " ++ default [] time_window
              ++ utf8 "<br>" ++ nl
    else html in
  let html := html ++ utf8 "        </div>" ++ nl in
  let html :=
    if truthy sheet_url
    then html ++ utf8 "        <p><a href=" ++ dq ++ default [] sheet_url ++ dq
              ++ utf8 " class=" ++ dq ++ utf8 "button" ++ dq
              ++ utf8 ">📊 查看完整报告（Google Sheets）</a></p>" ++ nl
    else html in
  let html := html ++ utf8 "        <h2>📑 今日头条</h2>" ++ nl in
  html.

Definition _build_html_body (articles : list (gmap pystr pyval))
    (time_window sheet_url : option pystr) : pystr :=
  let html := html_head articles time_window sheet_url in
  let html :=
    fold_left (fun html '(i, article) => html ++ html_article i article)
              (enumerate 1 (take 10 articles)) html in
  let html :=
    if 10 <? length articles
    then html ++ html_overflow (length articles)
    else html in
  let html := html ++ html_close in
  html.

(** The lines the [for] loop of [_build_text_body] adds for one article. *)
Definition text_block (i : nat) (title source published_at url summary : pyval)
    : pystr :=
  let text := py_format (PInt (Z.of_nat i)) ++ utf8 ". " ++ py_format title ++ nl in
  let text := text ++ utf8 "   来源: " ++ py_format source ++ nl in
  let text := text ++ utf8 "   时间: " ++ py_format published_at ++ nl in
  let text := text ++ utf8 "   摘要: " ++ py_format summary ++ nl in
  let text := text ++ utf8 "   链接: " ++ py_format url ++ nl in
  let text := text ++ nl in
  text.

(** The body of the [for] loop of [_build_text_body]. *)
Definition text_article (i : nat) (article : gmap pystr pyval) : pystr :=
  let title := dict_get article k_title (PStr (utf8 "无标题")) in
  let source := dict_get article k_source (PStr (utf8 "未知来源")) in
  let published_at := dict_get article k_published_at (PStr (utf8 "N/A")) in
  let url := dict_get article k_url (PStr (utf8 "#")) in
  let summary := dict_get article k_raw_summary (PStr (utf8 "暂无摘要")) in
  text_block i title source published_at url summary.

(** The notice [_build_text_body] adds when more than ten articles are
    supplied. *)
Definition text_overflow (n : nat) : pystr :=
  nl ++ utf8 "注意: 仅显示前 10 条新闻，完整的 " ++ py_format (PInt (Z.of_nat n))
     ++ utf8 " 条新闻请查看 Google Sheets。" ++ nl.

(** [_build_text_body] up to the loop. *)
Definition text_head (articles : list (gmap pystr pyval))
    (time_window sheet_url : option pystr) : pystr :=
  let text := str_mul (utf8 "=") 60 ++ nl in
  let text := text ++ utf8 "📰 新闻日报" ++ nl in
  let text := text ++ str_mul (utf8 "=") 60 ++ nl ++ nl in
  let text := text ++ utf8 "新闻总数: "
                   ++ py_format (PInt (Z.of_nat (length articles))) ++ nl in
  let text :=
    if truthy time_window
    then text ++ utf8 "时间范围: " ++ default [] time_window ++ nl
    else text in
  let text :=
    if truthy sheet_url
    then text ++ nl ++ utf8 "📊 查看完整报告: " ++ default [] sheet_url ++ nl
    else text in
  let text := text ++ nl ++ str_mul (utf8 "=") 60 ++ nl in
  let text := text ++ utf8 "📑 今日头条" ++ nl in
  let text := text ++ str_mul (utf8 "=") 60 ++ nl ++ nl in
  text.

Definition _build_text_body (articles : list (gmap pystr pyval))
    (time_window sheet_url : option pystr) : pystr :=
  let text := text_head articles time_window sheet_url in
  let text :=
    fold_left (fun text '(i, article) => text ++ text_article i article)
              (enumerate 1 (take 10 articles)) text in
  let text :=
    if 10 <? length articles
    then text ++ text_overflow (length articles)
    else text in
  let text := text ++ str_mul (utf8 "=") 60 ++ nl in
  text.

(** ** The outside world *)

(** A raised exception: its class and [str(e)]. *)
Inductive exn_class : Type :=
  | ValueError | RuntimeError | TypeError | KeyError | OtherError.

Record exn : Type := Exn { exn_kind : exn_class; exn_str : pystr }.

(** A computation either returns or raises. *)
Inductive outcome (A : Type) : Type :=
  | Ret (a : A)
  | Raise (e : exn).
Arguments Ret {A} a.
Arguments Raise {A} e.

(** An entry of the worksheet list: a dictionary of dictionaries, of which
    the code reads [sheet['properties']['title']]. *)
Abbreviation sheet := (gmap pystr (gmap pystr pyval)).

(** The multipart message handed to the mail service.  Its MIME
    serialisation and base64 encoding are the SDK's and are kept abstract:
    the message is the record of what the code puts in. *)
Record mime : Type := Mime {
  mime_subject : pystr;
  mime_to : pystr;
  mime_from : pystr;
  mime_plain : pystr;
  mime_html : pystr
}.

(** Credentials unpickled from the Gmail token file, with the three
    attributes the code tests. *)
Record credentials : Type := Credentials {
  valid : bool;
  expired : bool;
  refresh_token : bool
}.

(** The remote endpoints the package calls, with the arguments it sends. *)
Inductive request : Type :=
  | SpreadsheetsGet (spreadsheetId : pystr)
  | ValuesUpdate (spreadsheetId range valueInputOption : pystr)
                 (values : list (list pyval))
  | ValuesAppend (spreadsheetId range valueInputOption insertDataOption : pystr)
                 (values : list (list pyval))
  | ValuesGet (spreadsheetId range : pystr)
  | MessagesSend (userId : pystr) (raw : mime)
  | TokenRefresh
  | OAuthLogin.

(** What [.execute()] returns: a dictionary, of which the code reads the
    keys ['sheets'], ['values'], ['updates'] and ['id']. *)
Record response : Type := Response {
  r_sheets : option (list sheet);
  r_values : option (list (list pyval));
  r_updates : option (gmap pystr pyval);
  r_id : option pyval
}.

(** Every outward action is logged, remote calls and local file accesses
    alike. *)
Inductive event : Type :=
  | EvRemote (r : request)
  | EvServiceAccountFile (path : pystr)
  | EvTokenExists (path : pystr)
  | EvTokenLoad (path : pystr)
  | EvTokenDump (path : pystr)
  | EvClientSecrets (path : pystr)
  | EvBuildGmail.

(** The world a call runs in.  [environ] is the process environment once
    [load_dotenv] has run.  [remote] answers a request given the log so
    far, so a service may answer the same request differently over time.
    The SDK's own traffic (token exchange, discovery) is below this
    interface. *)
Record world : Type := World {
  environ : gmap pystr pystr;
  service_account : pystr → option exn;
  remote : list event → request → outcome response;
  now : pystr;
  token_store : pystr → option (outcome credentials);
  token_dump : pystr → option exn;
  client_secrets : pystr → option exn;
  build_gmail : option exn
}.

(** Reader, writer and exceptions: a computation reads the world and the
    log of what happened before it, and yields its outcome together with
    the events it adds to the log. *)
Definition M (A : Type) : Type := world → list event → outcome A * list event.

Definition ret {A} (a : A) : M A := fun _ _ => (Ret a, []).

Definition bind {A B} (m : M A) (k : A → M B) : M B :=
  fun w past =>
    match m w past with
    | (Ret a, ev1) =>
        let '(r, ev2) := k a w (past ++ ev1) in (r, ev1 ++ ev2)
    | (Raise e, ev1) => (Raise e, ev1)
    end.

Definition raise {A} (e : exn) : M A := fun _ _ => (Raise e, []).

(** [try: m except Exception as e: handler e]. *)
Definition try_except {A} (m : M A) (handler : exn → M A) : M A :=
  fun w past =>
    match m w past with
    | (Ret a, ev1) => (Ret a, ev1)
    | (Raise e, ev1) =>
        let '(r, ev2) := handler e w (past ++ ev1) in (r, ev1 ++ ev2)
    end.

Definition ask : M world := fun w _ => (Ret w, []).

Definition log (e : event) : M unit := fun _ _ => (Ret tt, [e]).

Notation "'let*' x ':=' m 'in' k" := (bind m (fun x => k))
  (at level 10, x name, m at level 100, k at level 200, only parsing).
Notation "'let*' ' pat ':=' m 'in' k" :=
  (bind m (fun x => match x with pat => k end))
  (at level 10, pat pattern, m at level 100, k at level 200, only parsing).

(** A step that fails when the world says so. *)
Definition check (o : option exn) : M unit :=
  match o with
  | Some e => raise e
  | None => ret tt
  end.

Definition lift {A} (o : outcome A) : M A :=
  match o with
  | Ret a => ret a
  | Raise e => raise e
  end.

(** [request.execute()]: one call of a remote endpoint, logged whether it
    succeeds or not. *)
Definition execute (r : request) : M response :=
  fun w past => (remote w past r, [EvRemote r]).

(** [os.getenv(name)] and [os.getenv(name, default)]. *)
Definition getenv (name : pystr) : M (option pystr) :=
  let* w := ask in ret (environ w !! name).

Definition getenv_default (name dflt : pystr) : M pystr :=
  let* w := ask in ret (default dflt (environ w !! name)).

(** [for x in l: s = body s x]. *)
Fixpoint for_in {A S : Type} (l : list A) (s : S) (body : S → A → M S) : M S :=
  match l with
  | [] => ret s
  | x :: l' => let* s' := body s x in for_in l' s' body
  end.

(** [d[key]] on a dictionary: [KeyError] when the key is missing. *)
Definition key_error {A} (key : pystr) : M A :=
  raise (Exn KeyError (utf8 "'" ++ key ++ utf8 "'")).

(** [v[:n]]: strings are sliced, the other values are not subscriptable. *)
Definition py_slice_to (n : nat) (v : pyval) : outcome pyval :=
  match v with
  | PStr s => Ret (PStr (take n s))
  | PNone => Raise (Exn TypeError (utf8 "'NoneType' object is not subscriptable"))
  | PBool _ => Raise (Exn TypeError (utf8 "'bool' object is not subscriptable"))
  | PInt _ => Raise (Exn TypeError (utf8 "'int' object is not subscriptable"))
  end.

(** ** sheets_client.py *)

Record SheetsClient : Type := mkSheetsClient {
  spreadsheet_id : pystr;
  service_account_file : pystr;
  _sheets_cache : option (list sheet)
}.

Definition msg_no_spreadsheet_id : pystr :=
  utf8 "未找到 GOOGLE_SPREADSHEET_ID，请在 .env 文件中配置或传入参数".
Definition msg_no_service_account_file : pystr :=
  utf8 "未找到 GOOGLE_SERVICE_ACCOUNT_FILE，请在 .env 文件中配置或传入参数".

(** [SheetsClient.__init__].  Loading the service-account file and
    building the service are one step of the world, which may fail. *)
Definition SheetsClient_init (spreadsheet_id service_account_file : option pystr)
    : M SheetsClient :=
  let* env_id := getenv (utf8 "GOOGLE_SPREADSHEET_ID") in
  let self_spreadsheet_id := py_or spreadsheet_id env_id in
  let* env_file := getenv (utf8 "GOOGLE_SERVICE_ACCOUNT_FILE") in
  let self_service_account_file := py_or service_account_file env_file in
  if negb (truthy self_spreadsheet_id)
  then raise (Exn ValueError msg_no_spreadsheet_id)
  else if negb (truthy self_service_account_file)
  then raise (Exn ValueError msg_no_service_account_file)
  else
    let path := default [] self_service_account_file in
    let* _ := log (EvServiceAccountFile path) in
    let* w := ask in
    let* _ := check (service_account w path) in
    ret (mkSheetsClient (default [] self_spreadsheet_id) path None).

(** [SheetsClient.get_sheets]; the client is returned with its cache as
    the call leaves it. *)
Definition get_sheets (self : SheetsClient) (force_refresh : bool)
    : M (list sheet * SheetsClient) :=
  match _sheets_cache self, force_refresh with
  | Some cached, false => ret (cached, self)
  | _, _ =>
      let* spreadsheet := execute (SpreadsheetsGet (spreadsheet_id self)) in
      let sheets := default [] (r_sheets spreadsheet) in
      ret (sheets, mkSheetsClient (spreadsheet_id self)
                                  (service_account_file self) (Some sheets))
  end.

Definition get_first_sheet_title (self : SheetsClient) : M (pyval * SheetsClient) :=
  let* '(sheets, self) := get_sheets self false in
  match sheets with
  | [] => raise (Exn RuntimeError (utf8 "未找到任何工作表"))
  | first :: _ =>
      match first !! utf8 "properties" with
      | None => key_error (utf8 "properties")
      | Some properties =>
          match properties !! utf8 "title" with
          | None => key_error (utf8 "title")
          | Some title => ret (title, self)
          end
      end
  end.

Definition write_data (self : SheetsClient) (data : list (list pyval))
    (range_notation value_input_option : pystr) : M response :=
  execute (ValuesUpdate (spreadsheet_id self) range_notation
                        value_input_option data).

Definition append_data (self : SheetsClient) (data : list (list pyval))
    (range_notation value_input_option : pystr) : M response :=
  execute (ValuesAppend (spreadsheet_id self) range_notation
                        value_input_option (utf8 "INSERT_ROWS") data).

Definition read_data (self : SheetsClient) (range_notation : pystr)
    : M (list (list pyval)) :=
  let* result := execute (ValuesGet (spreadsheet_id self) range_notation) in
  ret (default [] (r_values result)).

Definition get_sheets_client (spreadsheet_id service_account_file : option pystr)
    : M SheetsClient :=
  SheetsClient_init spreadsheet_id service_account_file.

(** The range used when none is given: the title and the [suffix], with
    [sheet_title or client.get_first_sheet_title()] for the title. *)
Definition default_range (client : SheetsClient) (sheet_title : option pystr)
    (suffix : pystr) : M (pystr * SheetsClient) :=
  let* '(sheet_name, client) :=
    if truthy sheet_title
    then ret (PStr (default [] sheet_title), client)
    else get_first_sheet_title client in
  ret (py_format sheet_name ++ suffix, client).

Definition write_to_sheets (data : list (list pyval))
    (range_notation sheet_title spreadsheet_id : option pystr) : M response :=
  let* client := get_sheets_client spreadsheet_id None in
  let* '(range_notation, client) :=
    match range_notation with
    | None => default_range client sheet_title (utf8 "!A1")
    | Some r => ret (r, client)
    end in
  write_data client data range_notation (utf8 "RAW").

Definition append_to_sheets (data : list (list pyval))
    (range_notation sheet_title spreadsheet_id : option pystr) : M response :=
  let* client := get_sheets_client spreadsheet_id None in
  let* '(range_notation, client) :=
    match range_notation with
    | None => default_range client sheet_title (utf8 "!A:Z")
    | Some r => ret (r, client)
    end in
  append_data client data range_notation (utf8 "RAW").

Definition read_from_sheets (range_notation : pystr) (spreadsheet_id : option pystr)
    : M (list (list pyval)) :=
  let* client := get_sheets_client spreadsheet_id None in
  read_data client range_notation.

(** ** sheets_helper.py *)

(** Keys of the result dictionaries. *)
Definition k_success : pystr := utf8 "success".
Definition k_error : pystr := utf8 "error".
Definition k_updated_cells : pystr := utf8 "updated_cells".
Definition k_updated_range : pystr := utf8 "updated_range".
Definition k_sheet_url : pystr := utf8 "sheet_url".
Definition k_message_id : pystr := utf8 "message_id".

(** The dictionary every [except Exception as e] branch returns. *)
Definition failure (e : exn) : gmap pystr pyval :=
  {[ k_success := PBool false; k_error := PStr (exn_str e) ]}.

Definition sheet_url_prefix : pystr := utf8 "https://docs.google.com/spreadsheets/d/".

Definition header_row : list pyval :=
  [PStr (utf8 "发布时间"); PStr (utf8 "标题"); PStr (utf8 "来源");
   PStr (utf8 "链接"); PStr (utf8 "摘要")].

Definition timestamp_row (timestamp : pystr) : list pyval :=
  [PStr (utf8 "=== 批次: " ++ timestamp ++ utf8 " ==="); PStr []; PStr [];
   PStr []; PStr []].

(** The row appended for one article; the slice of the summary raises on
    a value that is not a string. *)
Definition news_row (article : gmap pystr pyval) : outcome (list pyval) :=
  match py_slice_to 500 (dict_get article k_raw_summary (PStr [])) with
  | Ret summary =>
      Ret [dict_get article k_published_at (PStr []);
           dict_get article k_title (PStr []);
           dict_get article k_source (PStr []);
           dict_get article k_url (PStr []);
           summary]
  | Raise e => Raise e
  end.

(** The rows [save_news_to_sheets] builds before it calls the service. *)
Definition build_rows (articles : list (gmap pystr pyval))
    (add_header add_timestamp : bool) : M (list (list pyval)) :=
  let rows := [] in
  let* w := ask in
  let rows :=
    if add_timestamp
    then let timestamp := now w in rows ++ [timestamp_row timestamp]
    else rows in
  let rows := if add_header then rows ++ [header_row] else rows in
  for_in articles rows
    (fun rows article => let* row := lift (news_row article) in ret (rows ++ [row])).

Definition save_news_to_sheets (articles : list (gmap pystr pyval))
    (add_header add_timestamp : bool) : M (gmap pystr pyval) :=
  try_except
    (let* rows := build_rows articles add_header add_timestamp in
     let* result := append_to_sheets rows None None None in
     let* client := get_sheets_client None None in
     let sheet_url := sheet_url_prefix ++ spreadsheet_id client in
     let updates := default ∅ (r_updates result) in
     ret {[ k_success := PBool true;
            k_updated_cells := dict_get updates (utf8 "updatedCells") (PInt 0);
            k_updated_range := dict_get updates (utf8 "updatedRange") (PStr []);
            k_sheet_url := PStr sheet_url ]})
    (fun e => ret (failure e)).

Definition create_sheets_header : M (gmap pystr pyval) :=
  try_except
    (let header := [header_row] in
     let* result := write_to_sheets header None None None in
     let* client := get_sheets_client None None in
     let sheet_url := sheet_url_prefix ++ spreadsheet_id client in
     ret {[ k_success := PBool true; k_sheet_url := PStr sheet_url ]})
    (fun e => ret (failure e)).

Definition get_sheet_url : M (option pystr) :=
  try_except
    (let* client := get_sheets_client None None in
     ret (Some (sheet_url_prefix ++ spreadsheet_id client)))
    (fun _ => ret None).

(** ** gmail_client.py: authentication and sending *)

(** [get_gmail_service]; the service object itself carries nothing the
    callers read, so the call returns [tt]. *)
Definition get_gmail_service : M unit :=
  let* token_file := getenv_default (utf8 "GMAIL_TOKEN_FILE")
                                    (utf8 "./gmail_token.pickle") in
  let* credentials_file := getenv_default (utf8 "GMAIL_CREDENTIALS_FILE")
                                          (utf8 "./gmail_credentials.json") in
  let* w := ask in
  let* _ := log (EvTokenExists token_file) in
  let* creds :=
    match token_store w token_file with
    | Some pickled =>
        let* _ := log (EvTokenLoad token_file) in
        let* c := lift pickled in ret (Some c)
    | None => ret None
    end in
  let* _ :=
    if match creds with Some c => valid c | None => false end
    then ret tt
    else
      let* _ :=
        if match creds with
           | Some c => expired c && refresh_token c
           | None => false
           end
        then let* _ := execute TokenRefresh in ret tt
        else
          let* _ := log (EvClientSecrets credentials_file) in
          let* _ := check (client_secrets w credentials_file) in
          let* _ := execute OAuthLogin in ret tt in
      let* _ := log (EvTokenDump token_file) in
      check (token_dump w token_file) in
  let* _ := log EvBuildGmail in
  check (build_gmail w).

Definition msg_no_recipient : pystr := utf8 "未设置收件人邮箱（GMAIL_TO）".

Definition send_news_email (articles : list (gmap pystr pyval))
    (to_email subject time_window sheet_url : option pystr)
    : M (gmap pystr pyval) :=
  let* to_email :=
    if negb (truthy to_email) then getenv (utf8 "GMAIL_TO") else ret to_email in
  if negb (truthy to_email)
  then ret {[ k_success := PBool false; k_error := PStr msg_no_recipient ]}
  else
    let subject :=
      if negb (truthy subject)
      then Some (utf8 "📰 新闻日报 - "
                 ++ py_format (PInt (Z.of_nat (length articles)))
                 ++ utf8 " 条新闻")
      else subject in
    try_except
      (let* service := get_gmail_service in
       let html_body := _build_html_body articles time_window sheet_url in
       let text_body := _build_text_body articles time_window sheet_url in
       let message := Mime (default [] subject) (default [] to_email)
                           (utf8 "me") text_body html_body in
       let* sent_message := execute (MessagesSend (utf8 "me") message) in
       match r_id sent_message with
       | None => key_error (utf8 "id")
       | Some id => ret {[ k_success := PBool true; k_message_id := id ]}
       end)
      (fun e => ret (failure e)).

(** [send_email], the shorter interface, passes its arguments on. *)
Definition send_email (articles : list (gmap pystr pyval))
    (to_email subject time_window sheet_url : option pystr)
    : M (gmap pystr pyval) :=
  send_news_email articles to_email subject time_window sheet_url.

(** ** Vocabulary of the properties *)

(** The endpoint a request goes to. *)
Inductive endpoint : Type :=
  | spreadsheets_get | values_update | values_append | values_get
  | messages_send | token_refresh | oauth_login.

#[global] Instance endpoint_eq_dec : EqDecision endpoint.
Proof. solve_decision. Defined.

Definition endpoint_of (r : request) : endpoint :=
  match r with
  | SpreadsheetsGet _ => spreadsheets_get
  | ValuesUpdate _ _ _ _ => values_update
  | ValuesAppend _ _ _ _ _ => values_append
  | ValuesGet _ _ => values_get
  | MessagesSend _ _ => messages_send
  | TokenRefresh => token_refresh
  | OAuthLogin => oauth_login
  end.

(** How many times a log calls an endpoint. *)
Fixpoint calls (ep : endpoint) (evs : list event) : nat :=
  match evs with
  | [] => 0
  | EvRemote r :: evs' =>
      (if bool_decide (endpoint_of r = ep) then 1 else 0) + calls ep evs'
  | _ :: evs' => calls ep evs'
  end.


(** A client without a cache, for comparison with [get_sheets]: every call
    asks the service. *)
Definition get_sheets_uncached (self : SheetsClient)
    : M (list sheet * SheetsClient) :=
  let* spreadsheet := execute (SpreadsheetsGet (spreadsheet_id self)) in
  ret (default [] (r_sheets spreadsheet), self).

(** The summary of an article as a string, when its slice is defined: the
    field is missing or holds a string. *)
Definition summary_str (article : gmap pystr pyval) : option pystr :=
  match article !! k_raw_summary with
  | None => Some []
  | Some (PStr s) => Some s
  | Some _ => None
  end.

(** The rows [save_news_to_sheets] puts before the articles' rows. *)
Definition leading_rows (w : world) (add_header add_timestamp : bool)
    : list (list pyval) :=
  (if add_timestamp then [timestamp_row (now w)] else [])
  ++ (if add_header then [header_row] else []).

(** The blocks a builder shows inline, in order. *)
Definition inline_items (render : nat → gmap pystr pyval → pystr)
    (articles : list (gmap pystr pyval)) : list pystr :=
  map (fun '(i, a) => render i a) (enumerate 1 (take 10 articles)).


(** The rows of the articles, as the loop of [save_news_to_sheets] builds
    them: the first slice that fails aborts the whole list. *)
Fixpoint article_rows (articles : list (gmap pystr pyval))
    : outcome (list (list pyval)) :=
  match articles with
  | [] => Ret []
  | article :: rest =>
      match news_row article with
      | Ret row =>
          match article_rows rest with
          | Ret rows => Ret (row :: rows)
          | Raise e => Raise e
          end
      | Raise e => Raise e
      end
  end.

(** [traces w m L]: in world [w], whatever happened before, the events
    that [m] adds to the log satisfy [L]. *)
Definition traces {A} (w : world) (m : M A) (L : list event → Prop) : Prop :=
  ∀ past, L (snd (m w past)).

(** [reads w m a]: [m] only reads the world; it returns [a] and adds no
    event. *)
Definition reads {A} (w : world) (m : M A) (a : A) : Prop :=
  ∀ past, m w past = (Ret a, []).

Fixpoint count_endpoint (ep : endpoint) (l : list endpoint) : nat :=
  match l with
  | [] => 0
  | ep' :: l' => (if bool_decide (ep' = ep) then 1 else 0) + count_endpoint ep l'
  end.

(** [fits evs ps]: the remote calls of the log [evs] are, in order, calls
    of some of the endpoints listed in [ps], each listed entry being used
    at most once and each call satisfying the condition listed with its
    endpoint.  Local events are unconstrained. *)
Inductive fits : list event → list (endpoint * (request → Prop)) → Prop :=
  | fits_nil : fits [] []
  | fits_local e evs ps :
      (∀ r, e ≠ EvRemote r) → fits evs ps → fits (e :: evs) ps
  | fits_skip p evs ps : fits evs ps → fits evs (p :: ps)
  | fits_call r evs ep (P : request → Prop) ps :
      endpoint_of r = ep → P r → fits evs ps →
      fits (EvRemote r :: evs) ((ep, P) :: ps).

Definition any_request : request → Prop := fun _ => True.

(** Requests that carry exactly the rows [data]. *)
Definition updates_with (data : list (list pyval)) (r : request) : Prop :=
  match r with
  | ValuesUpdate _ _ _ values => values = data
  | _ => False
  end.

Definition appends_with (data : list (list pyval)) (r : request) : Prop :=
  match r with
  | ValuesAppend _ _ _ _ values => values = data
  | _ => False
  end.

(** The append request of [save_news_to_sheets]: it carries the leading
    rows and then the rows of the articles. *)
Definition appends_news (w : world) (articles : list (gmap pystr pyval))
    (add_header add_timestamp : bool) (r : request) : Prop :=
  ∃ rows, article_rows articles = Ret rows
          ∧ appends_with (leading_rows w add_header add_timestamp ++ rows) r.

(** The send request of [send_news_email]: it goes to user [me], is
    addressed to the argument or else to [GMAIL_TO], and carries the two
    bodies. *)
Definition sends_news (w : world) (articles : list (gmap pystr pyval))
    (to_email time_window sheet_url : option pystr) (r : request) : Prop :=
  ∃ message,
    r = MessagesSend (utf8 "me") message
    ∧ mime_to message
      = default [] (py_or to_email (environ w !! utf8 "GMAIL_TO"))
    ∧ mime_plain message = _build_text_body articles time_window sheet_url
    ∧ mime_html message = _build_html_body articles time_window sheet_url.

(** The paths [get_gmail_service] may touch: the token file and the client
    secrets, each from its environment variable or else its default. *)
Definition gmail_paths (w : world) (e : event) : Prop :=
  match e with
  | EvTokenExists p | EvTokenLoad p | EvTokenDump p =>
      p = default (utf8 "./gmail_token.pickle")
                  (environ w !! utf8 "GMAIL_TOKEN_FILE")
  | EvClientSecrets p =>
      p = default (utf8 "./gmail_credentials.json")
                  (environ w !! utf8 "GMAIL_CREDENTIALS_FILE")
  | _ => True
  end.

(** A worksheet entry with the given title. *)
Definition sheet_named (title : pystr) : sheet :=
  {[ utf8 "properties" := {[ utf8 "title" := PStr title ]} ]}.

(** A world whose spreadsheet gains a worksheet after the first call. *)
Definition growing_world : world :=
  World {[ utf8 "GOOGLE_SPREADSHEET_ID" := utf8 "abc";
           utf8 "GOOGLE_SERVICE_ACCOUNT_FILE" := utf8 "sa.json" ]}
        (fun _ => None)
        (fun past _ =>
           Ret (Response
                  (Some match past with
                        | [] => [sheet_named (utf8 "Sheet1")]
                        | _ => [sheet_named (utf8 "Sheet1");
                                sheet_named (utf8 "Sheet2")]
                        end)
                  None None None))
        (utf8 "2024-01-01 00:00:00")
        (fun _ => None) (fun _ => None) (fun _ => None) None.

(** A world in which everything is configured and the services answer:
    the spreadsheet [abc] has one worksheet, [Sheet1]. *)
Definition example_world : world :=
  World {[ utf8 "GOOGLE_SPREADSHEET_ID" := utf8 "abc";
           utf8 "GOOGLE_SERVICE_ACCOUNT_FILE" := utf8 "sa.json";
           utf8 "GMAIL_TO" := utf8 "reader@example.org" ]}
        (fun _ => None)
        (fun _ _ =>
           Ret (Response
                  (Some [sheet_named (utf8 "Sheet1")])
                  None None (Some (PStr (utf8 "m1")))))
        (utf8 "2024-01-01 00:00:00")
        (fun _ => Some (Ret (Credentials true false true)))
        (fun _ => None) (fun _ => None) None.



(** [returns w m P]: in world [w], whatever [m] returns satisfies [P]. *)
Definition returns {A} (w : world) (m : M A) (P : A → Prop) : Prop :=
  ∀ past a, fst (m w past) = Ret a → P a.

(** ** More vocabulary *)

(** The subject [send_news_email] uses: the argument, or else the default
    that counts the articles. *)
Definition subject_used (articles : list (gmap pystr pyval))
    (subject : option pystr) : pystr :=
  default []
    (if negb (truthy subject)
     then Some (utf8 "📰 新闻日报 - "
                ++ py_format (PInt (Z.of_nat (length articles)))
                ++ utf8 " 条新闻")
     else subject).

(** The one message [send_news_email] may send. *)
Definition sends_exactly (w : world) (articles : list (gmap pystr pyval))
    (to_email subject time_window sheet_url : option pystr) (r : request)
    : Prop :=
  r = MessagesSend (utf8 "me")
        (Mime (subject_used articles subject)
              (default [] (py_or to_email (environ w !! utf8 "GMAIL_TO")))
              (utf8 "me")
              (_build_text_body articles time_window sheet_url)
              (_build_html_body articles time_window sheet_url)).


(** The range a wrapper uses without asking the service: the range given,
    or else the title given followed by the suffix. *)
Definition range_given (range_notation sheet_title : option pystr)
    (suffix : pystr) : pystr :=
  match range_notation with
  | Some r => r
  | None => default [] sheet_title ++ suffix
  end.

(** Requests that write the rows [data] at [range], as entered. *)
Definition updates_at (range : pystr) (data : list (list pyval))
    (r : request) : Prop :=
  ∃ sid, r = ValuesUpdate sid range (utf8 "RAW") data.

Definition appends_at (range : pystr) (data : list (list pyval))
    (r : request) : Prop :=
  ∃ sid, r = ValuesAppend sid range (utf8 "RAW") (utf8 "INSERT_ROWS") data.

(** A configured world whose spreadsheet has no worksheet. *)
Definition empty_spreadsheet_world : world :=
  World {[ utf8 "GOOGLE_SPREADSHEET_ID" := utf8 "abc";
           utf8 "GOOGLE_SERVICE_ACCOUNT_FILE" := utf8 "sa.json" ]}
        (fun _ => None)
        (fun _ _ => Ret (Response (Some []) None None None))
        (utf8 "2024-01-01 00:00:00")
        (fun _ => None) (fun _ => None) (fun _ => None) None.

(** A world in which the spreadsheet is configured and the service-account
    file is not. *)
Definition half_configured_world : world :=
  World {[ utf8 "GOOGLE_SPREADSHEET_ID" := utf8 "abc" ]}
        (fun _ => None)
        (fun _ _ => Ret (Response None None None None))
        (utf8 "2024-01-01 00:00:00")
        (fun _ => None) (fun _ => None) (fun _ => None) None.

(** The spreadsheet a request addresses, for the requests that have one. *)
Definition request_spreadsheet (r : request) : option pystr :=
  match r with
  | SpreadsheetsGet sid
  | ValuesUpdate sid _ _ _
  | ValuesAppend sid _ _ _ _
  | ValuesGet sid _ => Some sid
  | MessagesSend _ _ | TokenRefresh | OAuthLogin => None
  end.

(** The identifier a client is constructed with. *)
Definition configured_spreadsheet (w : world) (spreadsheet_id : option pystr)
    : pystr :=
  default [] (py_or spreadsheet_id
                    (environ w !! utf8 "GOOGLE_SPREADSHEET_ID")).

(** How the default range relates to the arguments: the range given, or
    else some title followed by the suffix. *)
Definition range_from (range_notation : option pystr) (suffix range : pystr)
    : Prop :=
  match range_notation with
  | Some r => range = r
  | None => ∃ title, range = title ++ suffix
  end.



(** A world in which the stored token does not load. *)
Definition broken_token_world : world :=
  World {[ utf8 "GMAIL_TO" := utf8 "reader@example.org" ]}
        (fun _ => None)
        (fun _ _ => Ret (Response None None None (Some (PStr (utf8 "m1")))))
        (utf8 "2024-01-01 00:00:00")
        (fun _ => Some (Raise (Exn OtherError (utf8 "unpickling failed"))))
        (fun _ => None) (fun _ => None) None.

(** * Properties *)

(** The literals are never unfolded by simplification. *)
#[global] Arguments utf8 : simpl never.

(** ** The monad *)

Lemma run_bind {A B} (m : M A) (k : A → M B) w past :
  bind m k w past =
    match m w past with
    | (Ret a, ev1) => let '(r, ev2) := k a w (past ++ ev1) in (r, ev1 ++ ev2)
    | (Raise e, ev1) => (Raise e, ev1)
    end.
Proof. reflexivity. Qed.

Lemma run_try {A} (m : M A) (h : exn → M A) w past :
  try_except m h w past =
    match m w past with
    | (Ret a, ev1) => (Ret a, ev1)
    | (Raise e, ev1) => let '(r, ev2) := h e w (past ++ ev1) in (r, ev1 ++ ev2)
    end.
Proof. reflexivity. Qed.

(** ** Lists and folds *)

Lemma fold_left_blocks {A} (f : nat → A → pystr) (l : list (nat * A)) acc :
  fold_left (fun acc '(i, a) => acc ++ f i a) l acc
  = acc ++ concat (map (fun '(i, a) => f i a) l).
Proof.
  revert acc. induction l as [|[i a] l IH]; intros acc; simpl.
  - now rewrite app_nil_r.
  - rewrite IH. now rewrite <- app_assoc.
Qed.







Lemma close_body (head items notice close : pystr) (b : bool) :
  (if b then (head ++ items) ++ notice else head ++ items) ++ close
  = head ++ items ++ (if b then notice else []) ++ close.
Proof. destruct b; simpl; rewrite <- ?app_assoc; reflexivity. Qed.

Lemma html_body_eq articles time_window sheet_url :
  _build_html_body articles time_window sheet_url
  = html_head articles time_window sheet_url
    ++ concat (inline_items html_article articles)
    ++ (if 10 <? length articles then html_overflow (length articles) else [])
    ++ html_close.
Proof.
  unfold _build_html_body, inline_items. cbv zeta.
  rewrite fold_left_blocks. apply close_body.
Qed.

Lemma text_body_eq articles time_window sheet_url :
  _build_text_body articles time_window sheet_url
  = text_head articles time_window sheet_url
    ++ concat (inline_items text_article articles)
    ++ (if 10 <? length articles then text_overflow (length articles) else [])
    ++ str_mul (utf8 "=") 60 ++ nl.
Proof.
  unfold _build_text_body, inline_items. cbv zeta.
  rewrite fold_left_blocks. apply close_body.
Qed.


(** ** Defaults for missing fields *)






(** A field that is present is rendered as it is. *)
Lemma articles_render_present_fields (a : gmap pystr pyval) i t s p u r :
  a !! k_title = Some t → a !! k_source = Some s →
  a !! k_published_at = Some p → a !! k_url = Some u →
  a !! k_raw_summary = Some r →
  html_article i a = html_block i t s p u r
  ∧ text_article i a = text_block i t s p u r
  ∧ news_row a = match py_slice_to 500 r with
                 | Ret r' => Ret [p; t; s; u; r']
                 | Raise e => Raise e
                 end.
Proof.
  intros Ht Hs Hp Hu Hr.
  unfold html_article, text_article, news_row, dict_get.
  rewrite Ht, Hs, Hp, Hu, Hr. auto.
Qed.



(** ** Reasoning about the events of a computation *)

(** The rules follow the constructors of the monad; [w] is the world the
    computation runs in. *)
Section TraceRules.
Context (w : world).

Lemma traces_bind {A B} (m : M A) (k : A → M B) (L1 L2 L : list event → Prop) :
  traces w m L1 → (∀ a, traces w (k a) L2) →
  (∀ ev1, L1 ev1 → L ev1) →
  (∀ ev1 ev2, L1 ev1 → L2 ev2 → L (ev1 ++ ev2)) →
  traces w (bind m k) L.
Proof.
  intros Hm Hk Hpre Hcat past. rewrite run_bind.
  specialize (Hm past). destruct (m w past) as [[a|e] ev1]; simpl in *.
  - specialize (Hk a (past ++ ev1)).
    destruct (k a w (past ++ ev1)) as [r ev2]; simpl in *. auto.
  - auto.
Qed.

Lemma traces_try {A} (m : M A) (h : exn → M A) (L1 L2 L : list event → Prop) :
  traces w m L1 → (∀ e, traces w (h e) L2) →
  (∀ ev1, L1 ev1 → L ev1) →
  (∀ ev1 ev2, L1 ev1 → L2 ev2 → L (ev1 ++ ev2)) →
  traces w (try_except m h) L.
Proof.
  intros Hm Hh Hpre Hcat past. rewrite run_try.
  specialize (Hm past). destruct (m w past) as [[a|e] ev1]; simpl in *.
  - auto.
  - specialize (Hh e (past ++ ev1)).
    destruct (h e w (past ++ ev1)) as [r ev2]; simpl in *. auto.
Qed.

Lemma traces_read {A B} (m : M A) (k : A → M B) a L :
  reads w m a → traces w (k a) L → traces w (bind m k) L.
Proof.
  intros Hm Hk past. rewrite run_bind, Hm, app_nil_r.
  specialize (Hk past). destruct (k a w past); simpl in *. exact Hk.
Qed.

Lemma traces_weaken {A} (m : M A) (L1 L2 : list event → Prop) :
  traces w m L1 → (∀ ev, L1 ev → L2 ev) → traces w m L2.
Proof. intros Hm Himp past. apply Himp, Hm. Qed.

Lemma reads_ask : reads w ask w.
Proof. intros past. reflexivity. Qed.

Lemma reads_getenv name : reads w (getenv name) (environ w !! name).
Proof. intros past. reflexivity. Qed.

Lemma reads_getenv_default name d :
  reads w (getenv_default name d) (default d (environ w !! name)).
Proof. intros past. reflexivity. Qed.

Lemma traces_execute r (L : list event → Prop) :
  L [EvRemote r] → traces w (execute r) L.
Proof. intros HL past. exact HL. Qed.

Lemma traces_log e (L : list event → Prop) : L [e] → traces w (log e) L.
Proof. intros HL past. exact HL. Qed.

Lemma traces_ret {A} (a : A) (L : list event → Prop) : L [] → traces w (ret a) L.
Proof. intros HL past. exact HL. Qed.

Lemma traces_raise {A} e (L : list event → Prop) :
  L [] → traces w (@raise A e) L.
Proof. intros HL past. exact HL. Qed.

Lemma traces_check o (L : list event → Prop) : L [] → traces w (check o) L.
Proof. intros HL past. destruct o; exact HL. Qed.

Lemma traces_lift {A} (o : outcome A) (L : list event → Prop) :
  L [] → traces w (lift o) L.
Proof. intros HL past. destruct o; exact HL. Qed.
End TraceRules.

Lemma SheetsClient_init_run sid saf w past :
  SheetsClient_init sid saf w past =
    let id := py_or sid (environ w !! utf8 "GOOGLE_SPREADSHEET_ID") in
    let file := py_or saf (environ w !! utf8 "GOOGLE_SERVICE_ACCOUNT_FILE") in
    if negb (truthy id)
    then (Raise (Exn ValueError msg_no_spreadsheet_id), [])
    else if negb (truthy file)
    then (Raise (Exn ValueError msg_no_service_account_file), [])
    else (match service_account w (default [] file) with
          | Some e => Raise e
          | None => Ret (mkSheetsClient (default [] id) (default [] file) None)
          end, [EvServiceAccountFile (default [] file)]).
Proof.
  unfold SheetsClient_init. rewrite run_bind. simpl. rewrite run_bind. simpl.
  destruct (negb (truthy (py_or sid _))); [reflexivity|].
  destruct (negb (truthy (py_or saf _))); [reflexivity|].
  rewrite run_bind. simpl. rewrite run_bind. simpl.
  rewrite run_bind. simpl.
  destruct (service_account w _); reflexivity.
Qed.

(** ** The remote calls of each operation *)

Lemma fits_nil_any ps : fits [] ps.
Proof. induction ps; constructor; auto. Qed.

Lemma fits_more evs ps1 ps2 : fits evs ps1 → fits evs (ps1 ++ ps2).
Proof.
  induction 1; simpl.
  - apply fits_nil_any.
  - now apply fits_local.
  - now apply fits_skip.
  - now apply fits_call.
Qed.

Lemma fits_app evs1 evs2 ps1 ps2 :
  fits evs1 ps1 → fits evs2 ps2 → fits (evs1 ++ evs2) (ps1 ++ ps2).
Proof.
  intros H1 H2. induction H1; simpl.
  - exact H2.
  - now apply fits_local.
  - now apply fits_skip.
  - now apply fits_call.
Qed.

Lemma fits_calls evs ps ep :
  fits evs ps → calls ep evs ≤ count_endpoint ep (map fst ps).
Proof.
  induction 1 as [|e evs ps Hloc _ IH|p evs ps _ IH|r evs ep' P ps Hep HP _ IH];
    simpl.
  - lia.
  - destruct e; try exact IH. now destruct (Hloc r).
  - destruct p as [ep' P]. simpl. lia.
  - rewrite Hep. destruct (bool_decide (ep' = ep)); lia.
Qed.

Lemma fits_request evs ps r :
  fits evs ps → EvRemote r ∈ evs →
  ∃ P, (endpoint_of r, P) ∈ ps ∧ P r.
Proof.
  induction 1 as [|e evs ps Hloc _ IH|p evs ps _ IH|r' evs ep' P ps Hep HP _ IH];
    intros Hin.
  - now apply elem_of_nil in Hin.
  - apply elem_of_cons in Hin as [Heq|Hin]; [|auto].
    destruct (Hloc r). now symmetry.
  - destruct (IH Hin) as (P & HPin & HPr). exists P. split; [|exact HPr].
    apply elem_of_cons. now right.
  - apply elem_of_cons in Hin as [Heq|Hin].
    + injection Heq as <-. exists P. split; [|exact HP].
      apply elem_of_cons. left. now rewrite Hep.
    + destruct (IH Hin) as (P' & HPin & HPr). exists P'. split; [|exact HPr].
      apply elem_of_cons. now right.
Qed.

Lemma fits_mono evs ps ps' :
  Forall2 (fun p p' => fst p = fst p' ∧ ∀ r, snd p r → snd p' r) ps ps' →
  fits evs ps → fits evs ps'.
Proof.
  intros Hps Hfit. revert ps' Hps.
  induction Hfit as [|e evs ps Hloc _ IH|p evs ps _ IH|r evs ep P ps Hep HP _ IH];
    intros ps' Hps.
  - apply fits_nil_any.
  - apply fits_local; auto.
  - inversion Hps; subst. apply fits_skip. auto.
  - inversion Hps as [|? [ep' P'] ? ? [Hfst Hsnd] Hrest]; subst. simpl in *.
    subst ep'. apply fits_call; auto.
Qed.

Section CallRules.
Context (w : world).

Lemma calls_bind {A B} (m : M A) (k : A → M B) ps1 ps2 :
  traces w m (fun evs => fits evs ps1) →
  (∀ a, traces w (k a) (fun evs => fits evs ps2)) →
  traces w (bind m k) (fun evs => fits evs (ps1 ++ ps2)).
Proof.
  intros Hm Hk. eapply traces_bind; [exact Hm|exact Hk| |].
  - intros ev1. apply fits_more.
  - intros ev1 ev2. apply fits_app.
Qed.

Lemma calls_try {A} (m : M A) (h : exn → M A) ps :
  traces w m (fun evs => fits evs ps) →
  (∀ e, traces w (h e) (fun evs => evs = [])) →
  traces w (try_except m h) (fun evs => fits evs ps).
Proof.
  intros Hm Hh. eapply traces_try; [exact Hm|exact Hh| |].
  - auto.
  - intros ev1 ev2 H1 ->. now rewrite app_nil_r.
Qed.

Lemma calls_none {A} (m : M A) ps :
  traces w m (fun evs => evs = []) → traces w m (fun evs => fits evs ps).
Proof.
  intros Hm. eapply traces_weaken; [exact Hm|].
  intros ev ->. apply fits_nil_any.
Qed.

Lemma calls_execute r P :
  P r → traces w (execute r) (fun evs => fits evs [(endpoint_of r, P)]).
Proof.
  intros HP. apply traces_execute. apply fits_call; auto. constructor.
Qed.

Lemma SheetsClient_init_calls sid saf ps :
  traces w (SheetsClient_init sid saf) (fun evs => fits evs ps).
Proof.
  intros past. rewrite SheetsClient_init_run. cbv zeta.
  destruct (negb (truthy (py_or sid _))); [apply fits_nil_any|].
  destruct (negb (truthy (py_or saf _))); [apply fits_nil_any|].
  simpl. apply fits_local; [discriminate|apply fits_nil_any].
Qed.

Lemma get_sheets_calls self force :
  traces w (get_sheets self force)
         (fun evs => fits evs [(spreadsheets_get, any_request)]).
Proof.
  unfold get_sheets.
  destruct (_sheets_cache self) as [cached|], force;
    try (apply calls_none, traces_ret; reflexivity);
    apply (calls_bind _ _ [(spreadsheets_get, any_request)] []);
    try (apply (calls_execute (SpreadsheetsGet _)); exact I);
    intros a; apply traces_ret, fits_nil_any.
Qed.

Lemma get_first_sheet_title_calls self :
  traces w (get_first_sheet_title self)
         (fun evs => fits evs [(spreadsheets_get, any_request)]).
Proof.
  unfold get_first_sheet_title.
  apply (calls_bind _ _ [(spreadsheets_get, any_request)] []).
  - apply get_sheets_calls.
  - intros [sheets self']. destruct sheets as [|first rest].
    + apply traces_raise, fits_nil_any.
    + destruct (first !! utf8 "properties") as [properties|].
      * destruct (properties !! utf8 "title").
        -- apply traces_ret, fits_nil_any.
        -- apply traces_raise, fits_nil_any.
      * apply traces_raise, fits_nil_any.
Qed.

Lemma default_range_calls client sheet_title suffix :
  traces w (default_range client sheet_title suffix)
         (fun evs => fits evs [(spreadsheets_get, any_request)]).
Proof.
  unfold default_range.
  apply (calls_bind _ _ [(spreadsheets_get, any_request)] []).
  - destruct (truthy sheet_title).
    + apply traces_ret, fits_nil_any.
    + apply get_first_sheet_title_calls.
  - intros [name client']. apply traces_ret, fits_nil_any.
Qed.

Lemma write_to_sheets_calls data rn st sid :
  traces w (write_to_sheets data rn st sid)
         (fun evs => fits evs [(spreadsheets_get, any_request);
                               (values_update, updates_with data)]).
Proof.
  unfold write_to_sheets, get_sheets_client.
  apply (calls_bind _ _ [] [_; _]); [apply SheetsClient_init_calls|].
  intros client.
  apply (calls_bind _ _ [(spreadsheets_get, any_request)]
                        [(values_update, updates_with data)]).
  - destruct rn; [apply traces_ret, fits_nil_any|apply default_range_calls].
  - intros [range client']. unfold write_data.
    apply (calls_execute (ValuesUpdate _ _ _ _)). reflexivity.
Qed.

Lemma append_to_sheets_calls data rn st sid :
  traces w (append_to_sheets data rn st sid)
         (fun evs => fits evs [(spreadsheets_get, any_request);
                               (values_append, appends_with data)]).
Proof.
  unfold append_to_sheets, get_sheets_client.
  apply (calls_bind _ _ [] [_; _]); [apply SheetsClient_init_calls|].
  intros client.
  apply (calls_bind _ _ [(spreadsheets_get, any_request)]
                        [(values_append, appends_with data)]).
  - destruct rn; [apply traces_ret, fits_nil_any|apply default_range_calls].
  - intros [range client']. unfold append_data.
    apply (calls_execute (ValuesAppend _ _ _ _ _)). reflexivity.
Qed.

Lemma read_from_sheets_calls range sid :
  traces w (read_from_sheets range sid)
         (fun evs => fits evs [(values_get, any_request)]).
Proof.
  unfold read_from_sheets, get_sheets_client.
  apply (calls_bind _ _ [] [_]); [apply SheetsClient_init_calls|].
  intros client. unfold read_data.
  apply (calls_bind _ _ [(values_get, any_request)] []).
  - apply (calls_execute (ValuesGet _ _)). exact I.
  - intros result. apply traces_ret, fits_nil_any.
Qed.
End CallRules.

(** ** The rows built for the sheet *)

Lemma for_in_news_rows articles rows w past :
  for_in articles rows
    (fun rows article => let* row := lift (news_row article) in ret (rows ++ [row]))
    w past
  = (match article_rows articles with
     | Ret rs => Ret (rows ++ rs)
     | Raise e => Raise e
     end, []).
Proof.
  revert rows past. induction articles as [|a l IH]; intros rows past; simpl.
  - unfold ret. now rewrite app_nil_r.
  - rewrite run_bind, run_bind. destruct (news_row a) as [row|e]; simpl.
    + rewrite IH. destruct (article_rows l); simpl; auto.
      now rewrite <- app_assoc.
    + reflexivity.
Qed.

Lemma build_rows_run articles h t w past :
  build_rows articles h t w past
  = (match article_rows articles with
     | Ret rs => Ret (leading_rows w h t ++ rs)
     | Raise e => Raise e
     end, []).
Proof.
  unfold build_rows. rewrite run_bind. simpl. rewrite for_in_news_rows.
  unfold leading_rows. destruct t, h; simpl; reflexivity.
Qed.

(** ** The calls of the helpers and of the mail client *)

Lemma reads_ret {A} w (a : A) : reads w (ret a) a.
Proof. intros past. reflexivity. Qed.

Lemma traces_raises_bind {A B} w (m : M A) (k : A → M B) e
    (L : list event → Prop) :
  (∀ past, m w past = (Raise e, [])) → L [] → traces w (bind m k) L.
Proof. intros Hm HL past. rewrite run_bind, Hm. exact HL. Qed.

Ltac fits_tac :=
  repeat first
    [ apply fits_nil_any
    | apply fits_call;
      [ reflexivity
      | first [ exact I | reflexivity
              | eexists; repeat (split; [reflexivity|]); reflexivity ]
      | ]
    | apply fits_local; [discriminate | ]
    | apply fits_skip ].

Ltac reads_tac :=
  first [apply reads_ask | apply reads_getenv | apply reads_getenv_default
        | apply reads_ret].

(** What is already known about the package's own functions. *)
Ltac known_calls :=
  first [ apply write_to_sheets_calls | apply append_to_sheets_calls
        | apply SheetsClient_init_calls ].

(** [calls] follows the structure of a computation; at a [bind] it looks
    for the point of the expected list of calls where the first part
    ends. *)
Ltac calls :=
  cbv beta;
  first
    [ known_calls
    | lazymatch goal with
      | |- traces _ (ret _) _ => apply traces_ret; fits_tac
      | |- traces _ (raise _) _ => apply traces_raise; fits_tac
      | |- traces _ (check _) _ => apply traces_check; fits_tac
      | |- traces _ (lift _) _ => apply traces_lift; fits_tac
      | |- traces _ (log _) _ => apply traces_log; fits_tac
      | |- traces _ (execute _) _ => apply traces_execute; fits_tac
      | |- traces _ (bind _ _) (fun evs => fits evs ?ps) =>
          first [ eapply traces_read; [solve [reads_tac] | calls]
                | split_calls (@nil (endpoint * (request → Prop))) ps ]
      | |- traces _ (try_except _ _) _ =>
          apply calls_try; [calls | intros ?; apply traces_ret; reflexivity]
      | |- traces _ (match ?x with _ => _ end) _ => destruct x; calls
      end ]
with split_calls pre post :=
  first
    [ solve [ apply (calls_bind _ _ _ pre post); [calls | intros ?; calls] ]
    | lazymatch post with
      | ?p :: ?post' =>
          let pre' := eval cbv [app] in (pre ++ [p]) in
          split_calls pre' post'
      end ].

Lemma get_gmail_service_calls w :
  traces w get_gmail_service
         (fun evs => fits evs [(token_refresh, any_request);
                               (oauth_login, any_request)]).
Proof. unfold get_gmail_service. calls. Qed.

Ltac known_calls ::=
  first [ apply write_to_sheets_calls | apply append_to_sheets_calls
        | apply SheetsClient_init_calls | apply get_gmail_service_calls ].

Lemma send_news_email_calls w articles to_email subject time_window sheet_url :
  traces w (send_news_email articles to_email subject time_window sheet_url)
         (fun evs => fits evs [(token_refresh, any_request);
                               (oauth_login, any_request);
                               (messages_send,
                                sends_news w articles to_email time_window
                                           sheet_url)]).
Proof.
  unfold send_news_email, key_error, sends_news, py_or.
  destruct (truthy to_email); cbn [negb]; calls.
Qed.

Lemma create_sheets_header_calls w :
  traces w create_sheets_header
         (fun evs => fits evs [(spreadsheets_get, any_request);
                               (values_update, updates_with [header_row])]).
Proof. unfold create_sheets_header, get_sheets_client. calls. Qed.

Lemma save_news_to_sheets_calls w articles add_header add_timestamp :
  traces w (save_news_to_sheets articles add_header add_timestamp)
         (fun evs => fits evs
            [(spreadsheets_get, any_request);
             (values_append, appends_news w articles add_header add_timestamp)]).
Proof.
  unfold save_news_to_sheets, get_sheets_client.
  apply calls_try; [|intros e; apply traces_ret; reflexivity].
  destruct (article_rows articles) as [rows|e] eqn:Hrows.
  - eapply traces_read.
    { intros past. rewrite build_rows_run, Hrows. reflexivity. }
    apply (calls_bind _ _ _ [_; _] []); [|intros result; calls].
    eapply traces_weaken; [apply append_to_sheets_calls|].
    intros evs. apply fits_mono.
    repeat constructor; simpl; auto.
    intros r Hr. exists rows. auto.
  - eapply traces_raises_bind; [|apply fits_nil_any].
    intros past. rewrite build_rows_run, Hrows. reflexivity.
Qed.

Lemma count_endpoint_le_1 ep ps :
  NoDup ps → count_endpoint ep ps ≤ 1.
Proof.
  induction 1 as [|ep' ps Hnotin _ IH]; simpl; [lia|].
  destruct (bool_decide_reflect (ep' = ep)) as [->|Hne]; [|lia].
  assert (count_endpoint ep ps = 0) as ->; [|lia].
  clear IH. induction ps as [|ep'' ps IH]; simpl; [reflexivity|].
  apply not_elem_of_cons in Hnotin as [Hne Hnotin].
  rewrite (IH Hnotin).
  destruct (bool_decide_reflect (ep'' = ep)); [congruence|reflexivity].
Qed.

Lemma fits_at_most_once evs ps ep :
  fits evs ps → NoDup (map fst ps) → calls ep evs ≤ 1.
Proof.
  intros Hfits Hnodup. etransitivity; [exact (fits_calls _ _ ep Hfits)|].
  now apply count_endpoint_le_1.
Qed.

Ltac distinct_endpoints :=
  simpl; repeat (apply NoDup_cons; split; [rewrite ?elem_of_cons, elem_of_nil; intuition discriminate|]);
  apply NoDup_nil; exact I.

(** C6: within one invocation of a public operation, whatever the services
    answer (failures included), no remote endpoint is called more than
    once. *)
Theorem nothing_is_retried (w : world) (past : list event) (ep : endpoint) :
  (∀ articles to_email subject time_window sheet_url,
     calls ep (snd (send_news_email articles to_email subject time_window
                                    sheet_url w past)) ≤ 1)
  ∧ (∀ articles add_header add_timestamp,
       calls ep (snd (save_news_to_sheets articles add_header add_timestamp
                                          w past)) ≤ 1)
  ∧ (∀ data range_notation sheet_title spreadsheet_id,
       calls ep (snd (write_to_sheets data range_notation sheet_title
                                      spreadsheet_id w past)) ≤ 1)
  ∧ (∀ data range_notation sheet_title spreadsheet_id,
       calls ep (snd (append_to_sheets data range_notation sheet_title
                                       spreadsheet_id w past)) ≤ 1)
  ∧ (∀ range_notation spreadsheet_id,
       calls ep (snd (read_from_sheets range_notation spreadsheet_id
                                       w past)) ≤ 1).
Proof.
  split; [|split; [|split; [|split]]]; intros.
  - eapply fits_at_most_once; [apply send_news_email_calls|distinct_endpoints].
  - eapply fits_at_most_once; [apply save_news_to_sheets_calls|distinct_endpoints].
  - eapply fits_at_most_once; [apply write_to_sheets_calls|distinct_endpoints].
  - eapply fits_at_most_once; [apply append_to_sheets_calls|distinct_endpoints].
  - eapply fits_at_most_once; [apply read_from_sheets_calls|distinct_endpoints].
Qed.

(** ** The rows appended by [save_news_to_sheets] *)

Lemma article_rows_spec articles rows :
  article_rows articles = Ret rows →
  Forall2 (fun a row => news_row a = Ret row) articles rows.
Proof.
  revert rows. induction articles as [|a l IH]; intros rows; simpl.
  - intros [= <-]. constructor.
  - destruct (news_row a) as [row|e] eqn:Hrow; [|discriminate].
    destruct (article_rows l) as [rows'|e]; [|discriminate].
    intros [= <-]. constructor; auto.
Qed.

Lemma article_rows_total articles :
  Forall (fun a => is_Some (summary_str a)) articles →
  ∃ rows, article_rows articles = Ret rows.
Proof.
  induction 1 as [|a l [s Hs] _ [rows IH]]; simpl; [eauto|].
  rewrite IH. unfold news_row, dict_get. unfold summary_str in Hs.
  destruct (a !! k_raw_summary) as [[| | |s']|]; try discriminate; simpl; eauto.
Qed.

Lemma news_row_spec a row :
  news_row a = Ret row →
  ∃ s, summary_str a = Some s
       ∧ row = [dict_get a k_published_at (PStr []);
                dict_get a k_title (PStr []);
                dict_get a k_source (PStr []);
                dict_get a k_url (PStr []);
                PStr (take 500 s)].
Proof.
  unfold news_row, summary_str, dict_get.
  destruct (a !! k_raw_summary) as [[| | |s]|]; simpl; try discriminate.
  - intros [= <-]. eauto.
  - intros [= <-]. exists []. auto.
Qed.

Lemma save_news_to_sheets_payload w articles add_header add_timestamp past
    sid rng vio ido data :
  EvRemote (ValuesAppend sid rng vio ido data)
    ∈ snd (save_news_to_sheets articles add_header add_timestamp w past) →
  ∃ rows, article_rows articles = Ret rows
          ∧ data = leading_rows w add_header add_timestamp ++ rows.
Proof.
  intros Hin.
  pose proof (save_news_to_sheets_calls w articles add_header add_timestamp past)
    as Hfits.
  destruct (fits_request _ _ _ Hfits Hin) as (P & HP & HPr). simpl in HP.
  apply elem_of_cons in HP as [HP|HP]; [discriminate|].
  apply elem_of_cons in HP as [HP|HP]; [|now apply elem_of_nil in HP].
  injection HP as ->. destruct HPr as (rows & Hrows & Hdata).
  exists rows. split; [exact Hrows|exact Hdata].
Qed.

(** C8: whenever [save_news_to_sheets] calls the append endpoint, the rows
    it sends are the leading rows followed by one row per article, and the
    fifth cell of the row of each article is the article's summary cut to
    its first 500 characters: the empty string when the field is missing,
    and never longer than 500. *)
Theorem appended_summary_is_truncated
    (w : world) (articles : list (gmap pystr pyval))
    (add_header add_timestamp : bool) (past : list event)
    (sid rng vio ido : pystr) (data : list (list pyval)) :
  EvRemote (ValuesAppend sid rng vio ido data)
    ∈ snd (save_news_to_sheets articles add_header add_timestamp w past) →
  ∃ rows,
    data = leading_rows w add_header add_timestamp ++ rows
    ∧ length rows = length articles
    ∧ ∀ k a, articles !! k = Some a →
        ∃ row s, rows !! k = Some row
                 ∧ summary_str a = Some s
                 ∧ (a !! k_raw_summary = None → s = [])
                 ∧ row !! 4 = Some (PStr (take 500 s))
                 ∧ length (take 500 s) ≤ 500.
Proof.
  intros Hin.
  destruct (save_news_to_sheets_payload _ _ _ _ _ _ _ _ _ _ Hin)
    as (rows & Hrows & ->).
  apply article_rows_spec in Hrows.
  exists rows. split; [reflexivity|]. split.
  - symmetry. exact (Forall2_length _ _ _ Hrows).
  - intros k a Ha.
    destruct (Forall2_lookup_l _ _ _ _ _ Hrows Ha) as (row & Hrow & Hnews).
    destruct (news_row_spec _ _ Hnews) as (s & Hs & ->).
    eexists _, s. split; [exact Hrow|]. split; [exact Hs|]. split; [|split].
    + intros Hnone. unfold summary_str in Hs. rewrite Hnone in Hs.
      now injection Hs.
    + reflexivity.
    + rewrite length_take. lia.
Qed.

Lemma appended_summary_is_truncated_witness :
  ∃ rows,
    [timestamp_row (utf8 "2024-01-01 00:00:00");
     [PStr []; PStr (utf8 "t"); PStr []; PStr []; PStr (utf8 "long story")]]
    = leading_rows example_world false true ++ rows
    ∧ length rows = length [ ({[ k_title := PStr (utf8 "t");
                                  k_raw_summary := PStr (utf8 "long story") ]}
                               : gmap pystr pyval) ]
    ∧ ∀ k a, [ ({[ k_title := PStr (utf8 "t");
                    k_raw_summary := PStr (utf8 "long story") ]}
                 : gmap pystr pyval) ] !! k = Some a →
        ∃ row s, rows !! k = Some row
                 ∧ summary_str a = Some s
                 ∧ (a !! k_raw_summary = None → s = [])
                 ∧ row !! 4 = Some (PStr (take 500 s))
                 ∧ length (take 500 s) ≤ 500.
Proof.
  apply (appended_summary_is_truncated example_world _ false true []
           (utf8 "abc") (utf8 "Sheet1!A:Z") (utf8 "RAW") (utf8 "INSERT_ROWS")).
  vm_compute. do 2 apply list_elem_of_further. apply list_elem_of_here.
Defined.

(** C9: whenever [save_news_to_sheets] calls the append endpoint, the rows
    it sends are, in order, the timestamp row when [add_timestamp] is set,
    the header row when [add_header] is set, and one row of five cells per
    article in input order; their number is the number of articles plus
    one for each flag that is set. *)
Theorem appended_rows_layout
    (w : world) (articles : list (gmap pystr pyval))
    (add_header add_timestamp : bool) (past : list event)
    (sid rng vio ido : pystr) (data : list (list pyval)) :
  EvRemote (ValuesAppend sid rng vio ido data)
    ∈ snd (save_news_to_sheets articles add_header add_timestamp w past) →
  ∃ rows,
    data = (if add_timestamp then [timestamp_row (now w)] else [])
           ++ (if add_header then [header_row] else []) ++ rows
    ∧ Forall2 (fun a row => news_row a = Ret row ∧ length row = 5)
              articles rows
    ∧ length data = length articles + (if add_timestamp then 1 else 0)
                    + (if add_header then 1 else 0).
Proof.
  intros Hin.
  destruct (save_news_to_sheets_payload _ _ _ _ _ _ _ _ _ _ Hin)
    as (rows & Hrows & ->).
  apply article_rows_spec in Hrows.
  exists rows. split; [|split].
  - unfold leading_rows. now rewrite <- app_assoc.
  - eapply Forall2_impl; [exact Hrows|].
    intros a row Hrow. split; [exact Hrow|].
    now destruct (news_row_spec _ _ Hrow) as (s & _ & ->).
  - unfold leading_rows. rewrite !length_app, <- (Forall2_length _ _ _ Hrows).
    destruct add_timestamp, add_header; simpl; lia.
Qed.

Lemma appended_rows_layout_witness :
  ∃ rows,
    [timestamp_row (utf8 "2024-01-01 00:00:00"); header_row;
     [PStr []; PStr (utf8 "t"); PStr []; PStr []; PStr []]]
    = (if true then [timestamp_row (now example_world)] else [])
      ++ (if true then [header_row] else []) ++ rows
    ∧ Forall2 (fun a row => news_row a = Ret row ∧ length row = 5)
              [ ({[ k_title := PStr (utf8 "t") ]} : gmap pystr pyval) ] rows
    ∧ length [timestamp_row (utf8 "2024-01-01 00:00:00"); header_row;
              [PStr []; PStr (utf8 "t"); PStr []; PStr []; PStr []]]
      = length [ ({[ k_title := PStr (utf8 "t") ]} : gmap pystr pyval) ]
        + (if true then 1 else 0) + (if true then 1 else 0).
Proof.
  apply (appended_rows_layout example_world _ true true []
           (utf8 "abc") (utf8 "Sheet1!A:Z") (utf8 "RAW") (utf8 "INSERT_ROWS")).
  vm_compute. do 2 apply list_elem_of_further. apply list_elem_of_here.
Defined.

(** When the configuration is present, the service account loads, the
    worksheet list has a titled first entry and every summary is a string
    or missing, the append endpoint is called with the rows above. *)
Lemma save_news_to_sheets_appends w articles add_header add_timestamp past
    c id c' file resp first rest props title :
  environ w !! utf8 "GOOGLE_SPREADSHEET_ID" = Some (c :: id) →
  environ w !! utf8 "GOOGLE_SERVICE_ACCOUNT_FILE" = Some (c' :: file) →
  service_account w (c' :: file) = None →
  (∀ past', remote w past' (SpreadsheetsGet (c :: id)) = Ret resp) →
  r_sheets resp = Some (first :: rest) →
  first !! utf8 "properties" = Some props →
  props !! utf8 "title" = Some title →
  Forall (fun a => is_Some (summary_str a)) articles →
  ∃ rows, article_rows articles = Ret rows
    ∧ EvRemote (ValuesAppend (c :: id) (py_format title ++ utf8 "!A:Z")
                  (utf8 "RAW") (utf8 "INSERT_ROWS")
                  (leading_rows w add_header add_timestamp ++ rows))
      ∈ snd (save_news_to_sheets articles add_header add_timestamp w past).
Proof.
  intros Hid Hfile Hsa Hget Hsheets Hprops Htitle Hsum.
  destruct (article_rows_total _ Hsum) as (rows & Hrows).
  exists rows. split; [exact Hrows|].
  unfold save_news_to_sheets. rewrite run_try, run_bind, build_rows_run, Hrows.
  unfold append_to_sheets at 1, get_sheets_client at 1.
  rewrite run_bind, run_bind, SheetsClient_init_run, Hid, Hfile. cbn.
  rewrite Hsa.
  unfold default_range, get_first_sheet_title, get_sheets. cbn.
  rewrite !run_bind. unfold execute at 1. rewrite Hget. cbn.
  rewrite Hsheets. cbn. rewrite Hprops, Htitle. cbn.
  destruct (remote w _ (ValuesAppend _ _ _ _ _)) as [result|e].
  - destruct (bind _ _ w _) as [[r|e] ev2]; cbn;
      do 2 apply list_elem_of_further; apply list_elem_of_here.
  - cbn. do 2 apply list_elem_of_further. apply list_elem_of_here.
Qed.

(** ** Missing configuration *)

Lemma SheetsClient_init_unconfigured sid saf w past :
  truthy sid = false →
  truthy (environ w !! utf8 "GOOGLE_SPREADSHEET_ID") = false →
  SheetsClient_init sid saf w past
  = (Raise (Exn ValueError msg_no_spreadsheet_id), []).
Proof.
  intros Hsid Henv. rewrite SheetsClient_init_run. cbv zeta.
  unfold py_or at 1. rewrite Hsid, Henv. reflexivity.
Qed.

(** C10: [get_sheet_url] always returns: the URL made of the prefix and the
    identifier of the client when the client can be constructed, [None]
    when its construction raises, as it does when the identifier is
    configured nowhere. *)
Theorem get_sheet_url_never_raises (w : world) (past : list event) :
  ∃ url : option pystr,
    fst (get_sheet_url w past) = Ret url
    ∧ (∀ client, fst (get_sheets_client None None w past) = Ret client →
         url = Some (sheet_url_prefix ++ spreadsheet_id client)
         ∧ environ w !! utf8 "GOOGLE_SPREADSHEET_ID" = Some (spreadsheet_id client))
    ∧ (∀ e, fst (get_sheets_client None None w past) = Raise e → url = None)
    ∧ (environ w !! utf8 "GOOGLE_SPREADSHEET_ID" = None → url = None).
Proof.
  unfold get_sheet_url. rewrite run_try, run_bind.
  destruct (get_sheets_client None None w past) as [[client|e] ev] eqn:Hinit;
    cbn.
  - eexists. split; [reflexivity|]. split; [|split].
    + intros client' [= <-]. split; [reflexivity|].
      unfold get_sheets_client in Hinit. rewrite SheetsClient_init_run in Hinit.
      cbv zeta in Hinit. unfold py_or in Hinit. cbn in Hinit.
      destruct (environ w !! utf8 "GOOGLE_SPREADSHEET_ID") as [[|c id]|];
        cbn in Hinit; try discriminate.
      destruct (environ w !! utf8 "GOOGLE_SERVICE_ACCOUNT_FILE") as [[|c' f]|];
        cbn in Hinit; try discriminate.
      destruct (service_account w (c' :: f)); now inversion Hinit.
    + discriminate.
    + intros Hnone. unfold get_sheets_client in Hinit.
      rewrite SheetsClient_init_unconfigured in Hinit;
        [discriminate|reflexivity|now rewrite Hnone].
  - eexists. split; [reflexivity|]. split; [discriminate|]. auto.
Qed.




(** ** Results and exceptions *)



Section ReturnRules.
Context (w : world).




End ReturnRules.







(** ** The worksheet cache *)

(** C5 does not hold: the second call on a client returns the list of the
    first call and calls nothing, although the service would by then
    answer with one more worksheet, as it does to a client without cache. *)
Lemma cached_sheets_go_stale :
  ∃ client ev,
    get_sheets (mkSheetsClient (utf8 "abc") (utf8 "sa.json") None) false
               growing_world []
    = (Ret ([sheet_named (utf8 "Sheet1")], client), ev)
    ∧ get_sheets client false growing_world ev
      = (Ret ([sheet_named (utf8 "Sheet1")], client), [])
    ∧ fst (get_sheets_uncached client growing_world ev)
      = Ret ([sheet_named (utf8 "Sheet1"); sheet_named (utf8 "Sheet2")],
             client)
    ∧ length [sheet_named (utf8 "Sheet1")]
      ≠ length [sheet_named (utf8 "Sheet1"); sheet_named (utf8 "Sheet2")].
Proof.
  eexists _, _. split; [reflexivity|]. split; [reflexivity|].
  split; [reflexivity|]. discriminate.
Qed.

(** C5, as the code has it: [get_sheets] asks the service when the client
    has no cached list or when [force_refresh] is set, with the same
    request and the same list as a client without cache, and it keeps the
    list; otherwise it returns the kept list without any call, whatever
    the service would answer by then. *)
Theorem get_sheets_fetches_once_then_caches
    (self : SheetsClient) (w : world) (past : list event) :
  (∀ force_refresh,
     _sheets_cache self = None ∨ force_refresh = true →
     get_sheets self force_refresh w past
     = (match remote w past (SpreadsheetsGet (spreadsheet_id self)) with
        | Ret spreadsheet =>
            Ret (default [] (r_sheets spreadsheet),
                 mkSheetsClient (spreadsheet_id self)
                   (service_account_file self)
                   (Some (default [] (r_sheets spreadsheet))))
        | Raise e => Raise e
        end, [EvRemote (SpreadsheetsGet (spreadsheet_id self))]))
  ∧ get_sheets_uncached self w past
    = (match remote w past (SpreadsheetsGet (spreadsheet_id self)) with
       | Ret spreadsheet => Ret (default [] (r_sheets spreadsheet), self)
       | Raise e => Raise e
       end, [EvRemote (SpreadsheetsGet (spreadsheet_id self))])
  ∧ (∀ cached, _sheets_cache self = Some cached →
       get_sheets self false w past = (Ret (cached, self), []))
  ∧ (∀ force_refresh sheets self',
       fst (get_sheets self force_refresh w past) = Ret (sheets, self') →
       ∀ w' past', get_sheets self' false w' past' = (Ret (sheets, self'), [])).
Proof.
  assert (∀ force_refresh,
            _sheets_cache self = None ∨ force_refresh = true →
            get_sheets self force_refresh w past
            = (match remote w past (SpreadsheetsGet (spreadsheet_id self)) with
               | Ret spreadsheet =>
                   Ret (default [] (r_sheets spreadsheet),
                        mkSheetsClient (spreadsheet_id self)
                          (service_account_file self)
                          (Some (default [] (r_sheets spreadsheet))))
               | Raise e => Raise e
               end, [EvRemote (SpreadsheetsGet (spreadsheet_id self))]))
    as Hfetch.
  { intros force_refresh Hcase. unfold get_sheets.
    destruct (_sheets_cache self) as [cached|], force_refresh;
      try (destruct Hcase; discriminate);
      rewrite run_bind; unfold execute;
      destruct (remote w past _); reflexivity. }
  split; [exact Hfetch|]. split; [|split].
  - unfold get_sheets_uncached. rewrite run_bind. unfold execute.
    destruct (remote w past _); reflexivity.
  - intros cached Hcached. unfold get_sheets. now rewrite Hcached.
  - intros force_refresh sheets self' Hret w' past'.
    destruct (_sheets_cache self) as [cached|] eqn:Hcache.
    + destruct force_refresh.
      * rewrite Hfetch in Hret by auto. cbn in Hret.
        destruct (remote w past _); [|discriminate].
        injection Hret as <- <-. reflexivity.
      * unfold get_sheets in Hret. rewrite Hcache in Hret.
        injection Hret as <- <-. unfold get_sheets. now rewrite Hcache.
    + rewrite Hfetch in Hret by auto. cbn in Hret.
      destruct (remote w past _); [|discriminate].
      injection Hret as <- <-. reflexivity.
Qed.

(** ** Where the configuration values come from *)

(** C7 does not hold of an argument that is supplied but empty: the values
    of the environment are used. *)
Lemma empty_argument_yields_to_environment :
  fst (SheetsClient_init (Some []) (Some []) example_world [])
  = Ret (mkSheetsClient (utf8 "abc") (utf8 "sa.json") None).
Proof. vm_compute. reflexivity. Qed.

Section PathRules.
Context (w : world) (P : event → Prop).

Lemma paths_bind {A B} (m : M A) (k : A → M B) :
  traces w m (Forall P) → (∀ a, traces w (k a) (Forall P)) →
  traces w (bind m k) (Forall P).
Proof.
  intros Hm Hk. eapply traces_bind; [exact Hm|exact Hk|auto|].
  intros ev1 ev2 H1 H2. apply Forall_app. auto.
Qed.
End PathRules.

Ltac paths :=
  cbv beta;
  lazymatch goal with
  | |- traces _ (ret _) _ => apply traces_ret; constructor
  | |- traces _ (raise _) _ => apply traces_raise; constructor
  | |- traces _ (check _) _ => apply traces_check; constructor
  | |- traces _ (lift _) _ => apply traces_lift; constructor
  | |- traces _ (log _) _ =>
      apply traces_log; constructor; [first [reflexivity|exact I]|constructor]
  | |- traces _ (execute _) _ =>
      apply traces_execute; constructor; [exact I|constructor]
  | |- traces _ (bind _ _) _ =>
      first [ eapply traces_read; [solve [reads_tac] | paths]
            | apply paths_bind; [paths | intros ?; paths] ]
  | |- traces _ (match ?x with _ => _ end) _ => destruct x; paths
  end.

Lemma get_gmail_service_paths w :
  traces w get_gmail_service (Forall (gmail_paths w)).
Proof. unfold get_gmail_service. paths. Qed.

Lemma bind_read {A B} w (m : M A) (k : A → M B) a past :
  reads w m a → bind m k w past = k a w past.
Proof.
  intros Hm. rewrite run_bind, Hm, app_nil_r. now destruct (k a w past).
Qed.

Lemma get_gmail_service_checks_token w past :
  ∃ rest,
    snd (get_gmail_service w past)
    = EvTokenExists (default (utf8 "./gmail_token.pickle")
                             (environ w !! utf8 "GMAIL_TOKEN_FILE")) :: rest.
Proof.
  unfold get_gmail_service.
  rewrite (bind_read w _ _ _ past (reads_getenv_default w _ _)).
  rewrite (bind_read w _ _ _ past (reads_getenv_default w _ _)).
  rewrite (bind_read w _ _ _ past (reads_ask w)).
  rewrite run_bind. unfold log at 1.
  destruct (bind _ _ w _) as [r ev]. eexists. reflexivity.
Qed.

(** C7, as the code has it: an argument that is [None] or empty yields to
    the environment variable, and a non-empty argument takes precedence.
    So the client holds the identifier and the file taken in that order
    from its arguments and from [GOOGLE_SPREADSHEET_ID] and
    [GOOGLE_SERVICE_ACCOUNT_FILE], and opens that file; the message is
    addressed to the argument or else to [GMAIL_TO]; and
    [get_gmail_service], which takes no argument, looks for the token at
    [GMAIL_TOKEN_FILE] and touches no token or secrets path other than
    those of [GMAIL_TOKEN_FILE] and [GMAIL_CREDENTIALS_FILE], or their
    defaults when the variables are unset. *)
Theorem configuration_from_argument_then_environment
    (w : world) (past : list event) :
  (∀ a b : option pystr, a = None ∨ a = Some [] → py_or a b = b)
  ∧ (∀ c s b, py_or (Some (c :: s)) b = Some (c :: s))
  ∧ (∀ sid saf client,
       fst (SheetsClient_init sid saf w past) = Ret client →
       spreadsheet_id client
       = default [] (py_or sid (environ w !! utf8 "GOOGLE_SPREADSHEET_ID"))
       ∧ service_account_file client
         = default []
             (py_or saf (environ w !! utf8 "GOOGLE_SERVICE_ACCOUNT_FILE"))
       ∧ snd (SheetsClient_init sid saf w past)
         = [EvServiceAccountFile (service_account_file client)])
  ∧ (∀ articles to_email subject time_window sheet_url userId message,
       EvRemote (MessagesSend userId message)
         ∈ snd (send_news_email articles to_email subject time_window
                                sheet_url w past) →
       mime_to message
       = default [] (py_or to_email (environ w !! utf8 "GMAIL_TO")))
  ∧ Forall (gmail_paths w) (snd (get_gmail_service w past))
  ∧ (∃ rest,
       snd (get_gmail_service w past)
       = EvTokenExists (default (utf8 "./gmail_token.pickle")
                                (environ w !! utf8 "GMAIL_TOKEN_FILE"))
         :: rest).
Proof.
  split; [|split; [|split; [|split; [|split]]]].
  - intros a b [->| ->]; reflexivity.
  - reflexivity.
  - intros sid saf client. rewrite SheetsClient_init_run. cbv zeta.
    destruct (negb (truthy (py_or sid _))); [discriminate|].
    destruct (negb (truthy (py_or saf _))); [discriminate|].
    cbn. destruct (service_account w _); [discriminate|].
    intros [= <-]. auto.
  - intros articles to_email subject time_window sheet_url userId message Hin.
    pose proof (send_news_email_calls w articles to_email subject time_window
                                      sheet_url past) as Hfits.
    destruct (fits_request _ _ _ Hfits Hin) as (P & HP & HPr). simpl in HP.
    apply elem_of_cons in HP as [HP|HP]; [discriminate|].
    apply elem_of_cons in HP as [HP|HP]; [discriminate|].
    apply elem_of_cons in HP as [HP|HP]; [|now apply elem_of_nil in HP].
    injection HP as ->. destruct HPr as (message' & Hreq & Hto & _).
    now injection Hreq as _ <-.
  - apply get_gmail_service_paths.
  - apply get_gmail_service_checks_token.
Qed.

(** ** The steps of [get_gmail_service] *)

Ltac run_gmail_service w past :=
  unfold get_gmail_service;
  rewrite (bind_read w _ _ _ past (reads_getenv_default w _ _));
  rewrite (bind_read w _ _ _ past (reads_getenv_default w _ _));
  rewrite (bind_read w _ _ _ past (reads_ask w));
  unfold bind, log, check, lift, execute, ret, raise; cbn.



Ltac member :=
  repeat first [apply list_elem_of_here | apply list_elem_of_further].

(** X1: with a stored token that is valid, [get_gmail_service] looks at the
    token file, loads it and builds the service; it calls no endpoint,
    reads no client secrets and does not rewrite the token file. *)
Theorem valid_token_needs_no_login (w : world) (past : list event)
    (c : credentials) :
  token_store w (default (utf8 "./gmail_token.pickle")
                         (environ w !! utf8 "GMAIL_TOKEN_FILE"))
  = Some (Ret c) →
  valid c = true →
  get_gmail_service w past
  = (match build_gmail w with Some e => Raise e | None => Ret tt end,
     [EvTokenExists (default (utf8 "./gmail_token.pickle")
                             (environ w !! utf8 "GMAIL_TOKEN_FILE"));
      EvTokenLoad (default (utf8 "./gmail_token.pickle")
                           (environ w !! utf8 "GMAIL_TOKEN_FILE"));
      EvBuildGmail]).
Proof.
  intros Hstore Hvalid. run_gmail_service w past.
  rewrite Hstore. cbn. rewrite Hvalid. cbn.
  destruct (build_gmail w); reflexivity.
Qed.

Lemma valid_token_needs_no_login_witness :
  valid (Credentials true false true) = true
  ∧ get_gmail_service example_world []
    = (match build_gmail example_world with
       | Some e => Raise e
       | None => Ret tt
       end,
       [EvTokenExists (default (utf8 "./gmail_token.pickle")
                         (environ example_world !! utf8 "GMAIL_TOKEN_FILE"));
        EvTokenLoad (default (utf8 "./gmail_token.pickle")
                       (environ example_world !! utf8 "GMAIL_TOKEN_FILE"));
        EvBuildGmail]).
Proof.
  split; [reflexivity|].
  apply (valid_token_needs_no_login example_world []
           (Credentials true false true)); reflexivity.
Defined.


(** ** More about the two bodies *)

(** X3: the articles after the tenth reach a body only through their
    number: two lists of the same length with the same first ten articles
    give the same HTML body and the same plaintext body. *)
Theorem bodies_depend_on_first_ten_and_count
    (articles articles' : list (gmap pystr pyval))
    (time_window sheet_url : option pystr) :
  take 10 articles = take 10 articles' →
  length articles = length articles' →
  _build_html_body articles time_window sheet_url
  = _build_html_body articles' time_window sheet_url
  ∧ _build_text_body articles time_window sheet_url
    = _build_text_body articles' time_window sheet_url.
Proof.
  intros Htake Hlen. rewrite !html_body_eq, !text_body_eq.
  unfold inline_items, html_head, text_head. cbv zeta.
  rewrite Htake, Hlen. split; reflexivity.
Qed.

Lemma bodies_depend_on_first_ten_and_count_witness :
  _build_html_body (replicate 10 ∅ ++ [ {[ k_title := PStr (utf8 "t") ]} ])
                   None None
  = _build_html_body (replicate 10 ∅ ++ [∅]) None None
  ∧ _build_text_body (replicate 10 ∅ ++ [ {[ k_title := PStr (utf8 "t") ]} ])
                     None None
    = _build_text_body (replicate 10 ∅ ++ [∅]) None None.
Proof.
  apply bodies_depend_on_first_ten_and_count; reflexivity.
Defined.

(** ** More about sending *)

Lemma calls_app ep evs1 evs2 :
  calls ep (evs1 ++ evs2) = calls ep evs1 + calls ep evs2.
Proof.
  induction evs1 as [|[r| | | | | |] evs1 IH]; simpl; auto.
  rewrite IH. lia.
Qed.

Lemma send_news_email_message w articles to_email subject time_window
    sheet_url :
  traces w (send_news_email articles to_email subject time_window sheet_url)
         (fun evs => fits evs [(token_refresh, any_request);
                               (oauth_login, any_request);
                               (messages_send,
                                sends_exactly w articles to_email subject
                                              time_window sheet_url)]).
Proof.
  unfold send_news_email, key_error, sends_exactly, subject_used, py_or.
  destruct (truthy to_email); cbn [negb]; calls.
Qed.

(** X4: whatever [send_news_email] sends goes to user [me] and is the
    message from [me] to the recipient, with the given subject or else the
    default subject that counts all the articles, and with the plaintext
    and HTML bodies of these articles. *)
Theorem sent_message_is_determined
    (w : world) (past : list event) (articles : list (gmap pystr pyval))
    (to_email subject time_window sheet_url : option pystr)
    (userId : pystr) (message : mime) :
  EvRemote (MessagesSend userId message)
    ∈ snd (send_news_email articles to_email subject time_window sheet_url
                           w past) →
  userId = utf8 "me"
  ∧ message
    = Mime (subject_used articles subject)
           (default [] (py_or to_email (environ w !! utf8 "GMAIL_TO")))
           (utf8 "me")
           (_build_text_body articles time_window sheet_url)
           (_build_html_body articles time_window sheet_url)
  ∧ (truthy subject = false →
       mime_subject message
       = utf8 "📰 新闻日报 - "
         ++ py_format (PInt (Z.of_nat (length articles)))
         ++ utf8 " 条新闻").
Proof.
  intros Hin.
  pose proof (send_news_email_message w articles to_email subject time_window
                                      sheet_url past) as Hfits.
  destruct (fits_request _ _ _ Hfits Hin) as (P & HP & HPr). simpl in HP.
  apply elem_of_cons in HP as [HP|HP]; [discriminate|].
  apply elem_of_cons in HP as [HP|HP]; [discriminate|].
  apply elem_of_cons in HP as [HP|HP]; [|now apply elem_of_nil in HP].
  injection HP as ->. unfold sends_exactly in HPr.
  injection HPr as -> ->. split; [reflexivity|]. split; [reflexivity|].
  intros Hsubject. unfold subject_used. cbn [mime_subject].
  rewrite Hsubject. reflexivity.
Qed.

Lemma sent_message_is_determined_witness :
  EvRemote
    (MessagesSend (utf8 "me")
       (Mime (subject_used [∅] None)
             (default []
                (py_or None (environ example_world !! utf8 "GMAIL_TO")))
             (utf8 "me")
             (_build_text_body [∅] None None)
             (_build_html_body [∅] None None)))
    ∈ snd (send_news_email [∅] None None None None example_world [])
  ∧ mime_subject
      (Mime (subject_used [∅] None)
            (default []
               (py_or None (environ example_world !! utf8 "GMAIL_TO")))
            (utf8 "me")
            (_build_text_body [∅] None None)
            (_build_html_body [∅] None None))
    = utf8 "📰 新闻日报 - " ++ py_format (PInt (Z.of_nat (length [∅ : gmap pystr pyval])))
      ++ utf8 " 条新闻".
Proof.
  assert (EvRemote
            (MessagesSend (utf8 "me")
               (Mime (subject_used [∅] None)
                     (default []
                        (py_or None
                           (environ example_world !! utf8 "GMAIL_TO")))
                     (utf8 "me")
                     (_build_text_body [∅] None None)
                     (_build_html_body [∅] None None)))
            ∈ snd (send_news_email [∅] None None None None example_world []))
    as Hin by (vm_compute; member).
  split; [exact Hin|].
  apply (sent_message_is_determined example_world [] [∅] None None None None
           _ _ Hin).
  reflexivity.
Defined.

Lemma bind_inv {A B} (m : M A) (k : A → M B) w past r ev :
  bind m k w past = (r, ev) →
  (∃ e, m w past = (Raise e, ev) ∧ r = Raise e)
  ∨ (∃ a ev1 ev2, m w past = (Ret a, ev1)
                  ∧ k a w (past ++ ev1) = (r, ev2) ∧ ev = ev1 ++ ev2).
Proof.
  rewrite run_bind. destruct (m w past) as [[a|e] ev1].
  - destruct (k a w (past ++ ev1)) as [r' ev2] eqn:Hk. intros [= <- <-].
    right. exists a, ev1, ev2. auto.
  - intros [= <- <-]. left. exists e. auto.
Qed.





(** ** More about saving the news *)

Lemma news_row_raises a e :
  news_row a = Raise e → exn_kind e = TypeError ∧ summary_str a = None.
Proof.
  unfold news_row, summary_str, dict_get.
  destruct (a !! k_raw_summary) as [[| | |s]|]; cbn;
    try discriminate; intros [= <-]; auto.
Qed.

Lemma article_rows_raises articles :
  (∃ a, a ∈ articles ∧ summary_str a = None) →
  ∃ e, article_rows articles = Raise e ∧ exn_kind e = TypeError.
Proof.
  intros (a & Hin & Hnone).
  induction articles as [|a' l IH]; [now apply elem_of_nil in Hin|].
  cbn. destruct (news_row a') as [row|e] eqn:Hrow.
  - apply elem_of_cons in Hin as [->|Hin].
    + destruct (news_row_spec _ _ Hrow) as (s & Hs & _). congruence.
    + destruct (IH Hin) as (e & -> & Hkind). eauto.
  - exists e. split; [reflexivity|]. now apply news_row_raises in Hrow.
Qed.

(** X6: when the summary of any article is present and not a string,
    [save_news_to_sheets] returns the failure dictionary of a [TypeError]
    and has done nothing outward: no file is opened, no endpoint called,
    and no row of the other articles is appended. *)
Theorem bad_summary_aborts_before_any_call
    (w : world) (past : list event) (articles : list (gmap pystr pyval))
    (add_header add_timestamp : bool) :
  (∃ a, a ∈ articles ∧ summary_str a = None) →
  ∃ e, exn_kind e = TypeError
       ∧ save_news_to_sheets articles add_header add_timestamp w past
         = (Ret (failure e), []).
Proof.
  intros Hbad. destruct (article_rows_raises _ Hbad) as (e & Hrows & Hkind).
  exists e. split; [exact Hkind|].
  unfold save_news_to_sheets.
  rewrite run_try, run_bind, build_rows_run, Hrows. reflexivity.
Qed.

Lemma bad_summary_aborts_before_any_call_witness :
  ∃ e, exn_kind e = TypeError
       ∧ save_news_to_sheets
           [ {[ k_title := PStr (utf8 "t") ]};
             {[ k_raw_summary := PNone ]} ] true true example_world []
         = (Ret (failure e), []).
Proof.
  apply bad_summary_aborts_before_any_call.
  exists {[ k_raw_summary := PNone ]}. split.
  - apply list_elem_of_further, list_elem_of_here.
  - unfold summary_str. now rewrite lookup_singleton_eq.
Defined.

Lemma init_calls_nothing sid saf w past ep :
  calls ep (snd (SheetsClient_init sid saf w past)) = 0.
Proof.
  pose proof (fits_calls _ _ ep (SheetsClient_init_calls w sid saf [] past))
    as Hle.
  change (count_endpoint ep (map fst [])) with 0 in Hle. lia.
Qed.





(** ** More about the wrappers of [sheets_client.py] *)

Lemma reads_bind {A B} w (m : M A) (k : A → M B) a b :
  reads w m a → reads w (k a) b → reads w (bind m k) b.
Proof.
  intros Hm Hk past. rewrite run_bind, Hm, app_nil_r, Hk. reflexivity.
Qed.

Lemma write_to_sheets_given data rn st sid w :
  is_Some rn ∨ truthy st = true →
  traces w (write_to_sheets data rn st sid)
         (fun evs => fits evs [(values_update,
                                updates_at (range_given rn st (utf8 "!A1"))
                                           data)]).
Proof.
  intros Hgiven.
  unfold write_to_sheets, get_sheets_client, default_range, write_data.
  apply (calls_bind _ _ _ [] [_]); [apply SheetsClient_init_calls|].
  intros client. destruct rn as [r|].
  - eapply traces_read; [apply reads_ret|].
    cbv beta iota. apply traces_execute.
    apply fits_call; [reflexivity| |apply fits_nil_any].
    eexists. reflexivity.
  - destruct Hgiven as [[r [=]]|Hst]. rewrite Hst.
    eapply traces_read.
    { eapply reads_bind; [apply reads_ret|]. cbv beta iota. apply reads_ret. }
    cbv beta iota. apply traces_execute.
    apply fits_call; [reflexivity| |apply fits_nil_any].
    eexists. reflexivity.
Qed.

Lemma append_to_sheets_given data rn st sid w :
  is_Some rn ∨ truthy st = true →
  traces w (append_to_sheets data rn st sid)
         (fun evs => fits evs [(values_append,
                                appends_at (range_given rn st (utf8 "!A:Z"))
                                           data)]).
Proof.
  intros Hgiven.
  unfold append_to_sheets, get_sheets_client, default_range, append_data.
  apply (calls_bind _ _ _ [] [_]); [apply SheetsClient_init_calls|].
  intros client. destruct rn as [r|].
  - eapply traces_read; [apply reads_ret|].
    cbv beta iota. apply traces_execute.
    apply fits_call; [reflexivity| |apply fits_nil_any].
    eexists. reflexivity.
  - destruct Hgiven as [[r [=]]|Hst]. rewrite Hst.
    eapply traces_read.
    { eapply reads_bind; [apply reads_ret|]. cbv beta iota. apply reads_ret. }
    cbv beta iota. apply traces_execute.
    apply fits_call; [reflexivity| |apply fits_nil_any].
    eexists. reflexivity.
Qed.

(** X8: given a range, or a non-empty worksheet title, [write_to_sheets]
    and [append_to_sheets] never ask the service for the worksheet list;
    what they send is the rows, entered [RAW], at the given range or else
    at the title followed by [!A1] (for writing) or [!A:Z] (for appending,
    which inserts rows). *)
Theorem given_range_or_title_skips_lookup
    (w : world) (past : list event) (data : list (list pyval))
    (range_notation sheet_title spreadsheet_id : option pystr) :
  is_Some range_notation ∨ truthy sheet_title = true →
  calls spreadsheets_get
        (snd (write_to_sheets data range_notation sheet_title spreadsheet_id
                              w past)) = 0
  ∧ calls spreadsheets_get
          (snd (append_to_sheets data range_notation sheet_title
                                 spreadsheet_id w past)) = 0
  ∧ (∀ sid rng vio values,
       EvRemote (ValuesUpdate sid rng vio values)
         ∈ snd (write_to_sheets data range_notation sheet_title
                                spreadsheet_id w past) →
       rng = range_given range_notation sheet_title (utf8 "!A1")
       ∧ vio = utf8 "RAW" ∧ values = data)
  ∧ (∀ sid rng vio ido values,
       EvRemote (ValuesAppend sid rng vio ido values)
         ∈ snd (append_to_sheets data range_notation sheet_title
                                 spreadsheet_id w past) →
       rng = range_given range_notation sheet_title (utf8 "!A:Z")
       ∧ vio = utf8 "RAW" ∧ ido = utf8 "INSERT_ROWS" ∧ values = data).
Proof.
  intros Hgiven.
  pose proof (write_to_sheets_given data _ _ spreadsheet_id w Hgiven past)
    as Hwrite.
  pose proof (append_to_sheets_given data _ _ spreadsheet_id w Hgiven past)
    as Happend.
  split; [|split; [|split]].
  - pose proof (fits_calls _ _ spreadsheets_get Hwrite) as Hle.
    change (count_endpoint spreadsheets_get _) with 0 in Hle. lia.
  - pose proof (fits_calls _ _ spreadsheets_get Happend) as Hle.
    change (count_endpoint spreadsheets_get _) with 0 in Hle. lia.
  - intros sid rng vio values Hin.
    destruct (fits_request _ _ _ Hwrite Hin) as (P & HP & HPr).
    apply elem_of_cons in HP as [HP|HP]; [|now apply elem_of_nil in HP].
    injection HP as ->. destruct HPr as (sid' & [= _ -> -> ->]). auto.
  - intros sid rng vio ido values Hin.
    destruct (fits_request _ _ _ Happend Hin) as (P & HP & HPr).
    apply elem_of_cons in HP as [HP|HP]; [|now apply elem_of_nil in HP].
    injection HP as ->. destruct HPr as (sid' & [= _ -> -> -> ->]). auto.
Qed.

Lemma given_range_or_title_skips_lookup_witness :
  calls spreadsheets_get
        (snd (write_to_sheets [header_row] None (Some (utf8 "News")) None
                              example_world [])) = 0
  ∧ calls spreadsheets_get
          (snd (append_to_sheets [header_row] None (Some (utf8 "News")) None
                                 example_world [])) = 0
  ∧ (∀ sid rng vio values,
       EvRemote (ValuesUpdate sid rng vio values)
         ∈ snd (write_to_sheets [header_row] None (Some (utf8 "News")) None
                                example_world []) →
       rng = range_given None (Some (utf8 "News")) (utf8 "!A1")
       ∧ vio = utf8 "RAW" ∧ values = [header_row])
  ∧ (∀ sid rng vio ido values,
       EvRemote (ValuesAppend sid rng vio ido values)
         ∈ snd (append_to_sheets [header_row] None (Some (utf8 "News")) None
                                 example_world []) →
       rng = range_given None (Some (utf8 "News")) (utf8 "!A:Z")
       ∧ vio = utf8 "RAW" ∧ ido = utf8 "INSERT_ROWS"
       ∧ values = [header_row]).
Proof.
  apply (given_range_or_title_skips_lookup example_world [] [header_row]
           None (Some (utf8 "News")) None).
  right. vm_compute. reflexivity.
Defined.

Lemma init_returned sid saf w past client ev :
  SheetsClient_init sid saf w past = (Ret client, ev) →
  spreadsheet_id client = configured_spreadsheet w sid
  ∧ _sheets_cache client = None.
Proof.
  rewrite SheetsClient_init_run. cbv zeta. unfold configured_spreadsheet.
  destruct (negb (truthy (py_or sid _))); [discriminate|].
  destruct (negb (truthy (py_or saf _))); [discriminate|].
  destruct (service_account w _); [discriminate|].
  intros [= <- _]. auto.
Qed.

Lemma SheetsClient_init_any_past sid saf w past past' :
  SheetsClient_init sid saf w past = SheetsClient_init sid saf w past'.
Proof. now rewrite !SheetsClient_init_run. Qed.

Lemma get_first_sheet_title_no_sheet w past client answer :
  _sheets_cache client = None →
  remote w past (SpreadsheetsGet (spreadsheet_id client)) = Ret answer →
  default [] (r_sheets answer) = [] →
  get_first_sheet_title client w past
  = (Raise (Exn RuntimeError (utf8 "未找到任何工作表")),
     [EvRemote (SpreadsheetsGet (spreadsheet_id client))]).
Proof.
  intros Hcache Hremote Hempty. unfold get_first_sheet_title, get_sheets.
  rewrite Hcache, run_bind, run_bind. unfold execute at 1.
  rewrite Hremote. cbn. rewrite Hempty. reflexivity.
Qed.

(** X9: when the spreadsheet has no worksheet (the answer lists none, or
    has no list), [write_to_sheets] and [append_to_sheets] called without
    a range and without a title update and append nothing, and once the
    client is constructed they raise [RuntimeError]. *)
Theorem no_worksheet_means_nothing_written
    (w : world) (past : list event) (data : list (list pyval))
    (sheet_title sid : option pystr) :
  (∀ past' id, ∃ answer,
     remote w past' (SpreadsheetsGet id) = Ret answer
     ∧ default [] (r_sheets answer) = []) →
  truthy sheet_title = false →
  calls values_update
        (snd (write_to_sheets data None sheet_title sid w past))
  = 0
  ∧ calls values_append
          (snd (append_to_sheets data None sheet_title sid
                                 w past)) = 0
  ∧ (∀ client ev,
       get_sheets_client sid None w past = (Ret client, ev) →
       fst (write_to_sheets data None sheet_title sid w past)
       = Raise (Exn RuntimeError (utf8 "未找到任何工作表"))
       ∧ fst (append_to_sheets data None sheet_title sid w past)
         = Raise (Exn RuntimeError (utf8 "未找到任何工作表"))).
Proof.
  intros Hnone Htitle.
  assert (∀ suffix client past',
            _sheets_cache client = None →
            default_range client sheet_title suffix w past'
            = (Raise (Exn RuntimeError (utf8 "未找到任何工作表")),
               [EvRemote (SpreadsheetsGet (spreadsheet_id client))]))
    as Hrange.
  { intros suffix client past' Hcache. unfold default_range.
    rewrite Htitle, run_bind.
    destruct (Hnone past' (spreadsheet_id client)) as (answer & Hremote & Hempty).
    now rewrite (get_first_sheet_title_no_sheet _ _ _ _ Hcache Hremote Hempty). }
  unfold write_to_sheets, append_to_sheets. rewrite !run_bind.
  destruct (get_sheets_client sid None w past)
    as [[client|e] ev] eqn:Hinit.
  - destruct (init_returned _ _ _ _ _ _ Hinit) as [_ Hcache].
    rewrite !run_bind, !(Hrange _ _ _ Hcache). cbn [fst snd].
    pose proof (init_calls_nothing sid None w past) as Hev.
    unfold get_sheets_client in Hinit. rewrite Hinit in Hev. cbn [snd] in Hev.
    rewrite !calls_app, !Hev.
    split; [reflexivity|]. split; [reflexivity|].
    intros client' ev' _. auto.
  - cbn [fst snd].
    pose proof (init_calls_nothing sid None w past) as Hev.
    unfold get_sheets_client in Hinit. rewrite Hinit in Hev. cbn [snd] in Hev.
    rewrite !Hev. split; [reflexivity|]. split; [reflexivity|]. discriminate.
Qed.

Lemma no_worksheet_means_nothing_written_witness :
  calls values_update
        (snd (write_to_sheets [header_row] None None None
                              empty_spreadsheet_world [])) = 0
  ∧ calls values_append
          (snd (append_to_sheets [header_row] None None None
                                 empty_spreadsheet_world [])) = 0
  ∧ fst (write_to_sheets [header_row] None None None
                         empty_spreadsheet_world [])
    = Raise (Exn RuntimeError (utf8 "未找到任何工作表")).
Proof.
  destruct (no_worksheet_means_nothing_written empty_spreadsheet_world []
              [header_row] None None)
    as (Hupdate & Happend & Hraise).
  - intros past' id. eexists. split; reflexivity.
  - reflexivity.
  - split; [exact Hupdate|]. split; [exact Happend|].
    eapply Hraise. vm_compute. reflexivity.
Defined.

(** ** More about failures of the client *)

Lemma helpers_report_client_failure w past e articles add_header
    add_timestamp rows :
  fst (get_sheets_client None None w past) = Raise e →
  article_rows articles = Ret rows →
  fst (save_news_to_sheets articles add_header add_timestamp w past)
  = Ret (failure e)
  ∧ fst (create_sheets_header w past) = Ret (failure e)
  ∧ fst (get_sheet_url w past) = Ret None
  ∧ ∀ ep,
      calls ep (snd (save_news_to_sheets articles add_header add_timestamp
                                         w past)) = 0
      ∧ calls ep (snd (create_sheets_header w past)) = 0
      ∧ calls ep (snd (get_sheet_url w past)) = 0.
Proof.
  intros Hinit Hrows. unfold get_sheets_client in Hinit.
  assert (∀ past', ∃ ev, SheetsClient_init None None w past' = (Raise e, ev)
                         ∧ ∀ ep, calls ep ev = 0) as Hfail.
  { intros past'. rewrite (SheetsClient_init_any_past _ _ _ past' past).
    destruct (SheetsClient_init None None w past) as [r ev] eqn:Hrun.
    cbn in Hinit. subst r. exists ev. split; [reflexivity|].
    intros ep. pose proof (init_calls_nothing None None w past ep) as H.
    now rewrite Hrun in H. }
  unfold save_news_to_sheets, create_sheets_header, get_sheet_url,
    append_to_sheets, write_to_sheets, get_sheets_client.
  rewrite !run_try, !run_bind, build_rows_run, Hrows, !run_bind.
  destruct (Hfail (past ++ [])) as (ev1 & -> & Hev1).
  destruct (Hfail past) as (ev2 & -> & Hev2).
  cbn. rewrite !app_nil_r. repeat split; auto.
Qed.

(** X10: when the construction of the client fails, for any reason (no
    identifier, no service-account file, a file that does not load),
    [save_news_to_sheets] (on articles whose summaries are strings or
    missing) and [create_sheets_header] return the failure dictionary of
    that very exception, [get_sheet_url] returns [None], and none of the
    three calls any endpoint. *)
Theorem client_failure_is_reported_and_nothing_is_called
    (w : world) (past : list event) (e : exn)
    (articles : list (gmap pystr pyval)) (add_header add_timestamp : bool) :
  fst (get_sheets_client None None w past) = Raise e →
  Forall (fun a => is_Some (summary_str a)) articles →
  fst (save_news_to_sheets articles add_header add_timestamp w past)
  = Ret (failure e)
  ∧ fst (create_sheets_header w past) = Ret (failure e)
  ∧ fst (get_sheet_url w past) = Ret None
  ∧ ∀ ep,
      calls ep (snd (save_news_to_sheets articles add_header add_timestamp
                                         w past)) = 0
      ∧ calls ep (snd (create_sheets_header w past)) = 0
      ∧ calls ep (snd (get_sheet_url w past)) = 0.
Proof.
  intros Hinit Hsum. destruct (article_rows_total _ Hsum) as (rows & Hrows).
  now apply (helpers_report_client_failure w past e articles _ _ rows).
Qed.

(** X11: when the spreadsheet is configured and the service-account file is
    configured nowhere, [SheetsClient] raises [ValueError] with the message
    that names [GOOGLE_SERVICE_ACCOUNT_FILE], before it opens any file; the
    wrappers raise the same, and the helpers report that message. *)
Theorem missing_service_account_file_is_reported
    (w : world) (past : list event) :
  truthy (environ w !! utf8 "GOOGLE_SPREADSHEET_ID") = true →
  truthy (environ w !! utf8 "GOOGLE_SERVICE_ACCOUNT_FILE") = false →
  (∀ sid saf,
     truthy saf = false →
     SheetsClient_init sid saf w past
     = (Raise (Exn ValueError msg_no_service_account_file), []))
  ∧ (∀ data range_notation sheet_title sid,
       write_to_sheets data range_notation sheet_title sid w past
       = (Raise (Exn ValueError msg_no_service_account_file), [])
       ∧ append_to_sheets data range_notation sheet_title sid w past
         = (Raise (Exn ValueError msg_no_service_account_file), []))
  ∧ (∀ range_notation sid,
       read_from_sheets range_notation sid w past
       = (Raise (Exn ValueError msg_no_service_account_file), []))
  ∧ (∀ articles add_header add_timestamp,
       Forall (fun a => is_Some (summary_str a)) articles →
       fst (save_news_to_sheets articles add_header add_timestamp w past)
       = Ret (failure (Exn ValueError msg_no_service_account_file)))
  ∧ fst (create_sheets_header w past)
    = Ret (failure (Exn ValueError msg_no_service_account_file)).
Proof.
  intros Hid Hfile.
  assert (∀ sid saf past',
            truthy saf = false →
            SheetsClient_init sid saf w past'
            = (Raise (Exn ValueError msg_no_service_account_file), []))
    as Hinit.
  { intros sid saf past' Hsaf. rewrite SheetsClient_init_run. cbv zeta.
    assert (truthy (py_or sid (environ w !! utf8 "GOOGLE_SPREADSHEET_ID"))
            = true) as ->.
    { unfold py_or. destruct (truthy sid) eqn:Hsid; [exact Hsid|exact Hid]. }
    unfold py_or at 1. rewrite Hsaf, Hfile. reflexivity. }
  split; [|split; [|split; [|split]]].
  - intros. now apply Hinit.
  - intros. unfold write_to_sheets, append_to_sheets, get_sheets_client.
    rewrite !run_bind, !Hinit by reflexivity. auto.
  - intros. unfold read_from_sheets, get_sheets_client.
    rewrite run_bind, Hinit by reflexivity. reflexivity.
  - intros articles add_header add_timestamp Hsum.
    destruct (article_rows_total _ Hsum) as (rows & Hrows).
    apply (helpers_report_client_failure w past _ articles _ _ rows);
      [|exact Hrows].
    unfold get_sheets_client. now rewrite Hinit.
  - apply (helpers_report_client_failure w past _ [] false false []);
      [|reflexivity].
    unfold get_sheets_client. now rewrite Hinit.
Qed.

Lemma client_failure_is_reported_and_nothing_is_called_witness :
  fst (save_news_to_sheets [∅] false true half_configured_world [])
  = Ret (failure (Exn ValueError msg_no_service_account_file))
  ∧ fst (create_sheets_header half_configured_world [])
    = Ret (failure (Exn ValueError msg_no_service_account_file))
  ∧ fst (get_sheet_url half_configured_world []) = Ret None
  ∧ ∀ ep,
      calls ep (snd (save_news_to_sheets [∅] false true
                                         half_configured_world [])) = 0
      ∧ calls ep (snd (create_sheets_header half_configured_world [])) = 0
      ∧ calls ep (snd (get_sheet_url half_configured_world [])) = 0.
Proof.
  apply client_failure_is_reported_and_nothing_is_called.
  - vm_compute. reflexivity.
  - repeat constructor. vm_compute. eauto.
Defined.

Lemma missing_service_account_file_is_reported_witness :
  read_from_sheets (utf8 "A1") None half_configured_world []
  = (Raise (Exn ValueError msg_no_service_account_file), [])
  ∧ fst (create_sheets_header half_configured_world [])
    = Ret (failure (Exn ValueError msg_no_service_account_file)).
Proof.
  destruct (missing_service_account_file_is_reported half_configured_world [])
    as (_ & _ & Hread & _ & Hheader).
  - vm_compute. reflexivity.
  - vm_compute. reflexivity.
  - split; [apply Hread|exact Hheader].
Defined.

(** ** The requests of the wrappers *)

Lemma calls_bind_returns {A B} w (m : M A) (k : A → M B) ps1 ps2
    (Q : A → Prop) :
  traces w m (fun evs => fits evs ps1) →
  returns w m Q →
  (∀ a, Q a → traces w (k a) (fun evs => fits evs ps2)) →
  traces w (bind m k) (fun evs => fits evs (ps1 ++ ps2)).
Proof.
  intros Hm HQ Hk past. rewrite run_bind.
  specialize (Hm past). specialize (HQ past).
  destruct (m w past) as [[a|e] ev1]; cbn in *.
  - specialize (Hk a (HQ a eq_refl) (past ++ ev1)).
    destruct (k a w (past ++ ev1)) as [r ev2]. cbn in *.
    now apply fits_app.
  - now apply fits_more.
Qed.

Lemma get_sheets_returned self force w past sheets self' ev :
  get_sheets self force w past = (Ret (sheets, self'), ev) →
  spreadsheet_id self' = spreadsheet_id self.
Proof.
  unfold get_sheets.
  destruct (_sheets_cache self) as [cached|], force;
    try (intros [= _ <- _]; reflexivity);
    intros Hrun;
    apply bind_inv in Hrun
      as [(e & _ & He)|(answer & ev1 & ev2 & _ & Hret & _)];
    try discriminate;
    cbv beta zeta in Hret; now injection Hret as _ <- _.
Qed.

Lemma default_range_returned client st suffix w past range client' ev :
  default_range client st suffix w past = (Ret (range, client'), ev) →
  (∃ title, range = title ++ suffix)
  ∧ spreadsheet_id client' = spreadsheet_id client.
Proof.
  unfold default_range. intros Hrun.
  apply bind_inv in Hrun
    as [(e & _ & He)|([name c] & ev1 & ev2 & Hname & Hret & _)];
    [discriminate|].
  cbv beta iota in Hret. injection Hret as <- <- _.
  split; [eexists; reflexivity|].
  destruct (truthy st); [now injection Hname as _ <- _|].
  unfold get_first_sheet_title in Hname.
  apply bind_inv in Hname
    as [(e & _ & He)|([sheets self'] & eva & evb & Hget & Htitle & _)];
    [discriminate|].
  apply get_sheets_returned in Hget. cbv beta iota in Htitle.
  destruct sheets as [|first rest]; [discriminate|].
  destruct (first !! utf8 "properties") as [properties|]; [|discriminate].
  destruct (properties !! utf8 "title"); [|discriminate].
  now injection Htitle as _ <- _.
Qed.

Lemma default_range_requests client st suffix w :
  traces w (default_range client st suffix)
         (fun evs => fits evs
            [(spreadsheets_get,
              fun r => r = SpreadsheetsGet (spreadsheet_id client))]).
Proof.
  unfold default_range, get_first_sheet_title, get_sheets, key_error. calls.
Qed.

Lemma range_step_returns w client rn st suffix :
  returns w
    (match rn with
     | None => default_range client st suffix
     | Some r => ret (r, client)
     end)
    (fun '(range, c) =>
       spreadsheet_id c = spreadsheet_id client ∧ range_from rn suffix range).
Proof.
  intros past [range c] Hrun. destruct rn as [r|].
  - injection Hrun as <- <-. split; reflexivity.
  - destruct (default_range client st suffix w past) as [r ev] eqn:Hrange.
    cbn in Hrun. subst r.
    destruct (default_range_returned _ _ _ _ _ _ _ _ Hrange). auto.
Qed.

Lemma range_step_requests w client rn st suffix :
  traces w
    (match rn with
     | None => default_range client st suffix
     | Some r => ret (r, client)
     end)
    (fun evs => fits evs
       [(spreadsheets_get,
         fun r => r = SpreadsheetsGet (spreadsheet_id client))]).
Proof.
  destruct rn; [apply traces_ret, fits_nil_any|apply default_range_requests].
Qed.

Lemma init_returns w sid saf :
  returns w (SheetsClient_init sid saf)
          (fun client => spreadsheet_id client = configured_spreadsheet w sid).
Proof.
  intros past client Hrun.
  destruct (SheetsClient_init sid saf w past) as [r ev] eqn:Hinit.
  cbn in Hrun. subst r. now destruct (init_returned _ _ _ _ _ _ Hinit).
Qed.

Lemma write_to_sheets_requests data rn st sid w :
  traces w (write_to_sheets data rn st sid)
    (fun evs => fits evs
       [(spreadsheets_get,
         fun r => r = SpreadsheetsGet (configured_spreadsheet w sid));
        (values_update,
         fun r => ∃ range,
           r = ValuesUpdate (configured_spreadsheet w sid) range
                            (utf8 "RAW") data
           ∧ range_from rn (utf8 "!A1") range)]).
Proof.
  unfold write_to_sheets, get_sheets_client.
  apply (calls_bind_returns w _ _ [] [_; _] _
           (SheetsClient_init_calls w sid None []) (init_returns w sid None)).
  intros client Hid. rewrite <- Hid.
  apply (calls_bind_returns w _ _ [_] [_] _
           (range_step_requests w client rn st (utf8 "!A1"))
           (range_step_returns w client rn st (utf8 "!A1"))).
  intros [range c] [Hc Hrange]. unfold write_data.
  apply traces_execute. apply fits_call; [reflexivity| |apply fits_nil_any].
  exists range. split; [now rewrite Hc|exact Hrange].
Qed.

Lemma append_to_sheets_requests data rn st sid w :
  traces w (append_to_sheets data rn st sid)
    (fun evs => fits evs
       [(spreadsheets_get,
         fun r => r = SpreadsheetsGet (configured_spreadsheet w sid));
        (values_append,
         fun r => ∃ range,
           r = ValuesAppend (configured_spreadsheet w sid) range
                            (utf8 "RAW") (utf8 "INSERT_ROWS") data
           ∧ range_from rn (utf8 "!A:Z") range)]).
Proof.
  unfold append_to_sheets, get_sheets_client.
  apply (calls_bind_returns w _ _ [] [_; _] _
           (SheetsClient_init_calls w sid None []) (init_returns w sid None)).
  intros client Hid. rewrite <- Hid.
  apply (calls_bind_returns w _ _ [_] [_] _
           (range_step_requests w client rn st (utf8 "!A:Z"))
           (range_step_returns w client rn st (utf8 "!A:Z"))).
  intros [range c] [Hc Hrange]. unfold append_data.
  apply traces_execute. apply fits_call; [reflexivity| |apply fits_nil_any].
  exists range. split; [now rewrite Hc|exact Hrange].
Qed.

Lemma read_from_sheets_requests range sid w :
  traces w (read_from_sheets range sid)
    (fun evs => fits evs
       [(values_get,
         fun r => r = ValuesGet (configured_spreadsheet w sid) range)]).
Proof.
  unfold read_from_sheets, get_sheets_client.
  apply (calls_bind_returns w _ _ [] [_] _
           (SheetsClient_init_calls w sid None []) (init_returns w sid None)).
  intros client Hid. rewrite <- Hid. unfold read_data.
  apply (calls_bind _ _ _ [_] []).
  - apply traces_execute. apply fits_call; [reflexivity..|apply fits_nil_any].
  - intros result. apply traces_ret, fits_nil_any.
Qed.

(** X12: every request of [write_to_sheets], [append_to_sheets] and
    [read_from_sheets] addresses one and the same spreadsheet, the one of
    the non-empty argument or else of [GOOGLE_SPREADSHEET_ID]; and
    [read_from_sheets] asks for the range it is given. *)
Theorem requests_address_the_configured_spreadsheet
    (w : world) (past : list event) (sid : option pystr) (q : request) :
  (∀ data range_notation sheet_title,
     EvRemote q ∈ snd (write_to_sheets data range_notation sheet_title sid
                                       w past) →
     request_spreadsheet q = Some (configured_spreadsheet w sid))
  ∧ (∀ data range_notation sheet_title,
       EvRemote q ∈ snd (append_to_sheets data range_notation sheet_title sid
                                          w past) →
       request_spreadsheet q = Some (configured_spreadsheet w sid))
  ∧ (∀ range_notation,
       EvRemote q ∈ snd (read_from_sheets range_notation sid w past) →
       q = ValuesGet (configured_spreadsheet w sid) range_notation).
Proof.
  split; [|split].
  - intros data rn st Hin.
    destruct (fits_request _ _ _ (write_to_sheets_requests data rn st sid w past)
                           Hin) as (P & HP & HPr).
    apply elem_of_cons in HP as [HP|HP].
    { injection HP as _ ->. now rewrite HPr. }
    apply elem_of_cons in HP as [HP|HP]; [|now apply elem_of_nil in HP].
    injection HP as _ ->. destruct HPr as (range & -> & _). reflexivity.
  - intros data rn st Hin.
    destruct (fits_request _ _ _ (append_to_sheets_requests data rn st sid w past)
                           Hin) as (P & HP & HPr).
    apply elem_of_cons in HP as [HP|HP].
    { injection HP as _ ->. now rewrite HPr. }
    apply elem_of_cons in HP as [HP|HP]; [|now apply elem_of_nil in HP].
    injection HP as _ ->. destruct HPr as (range & -> & _). reflexivity.
  - intros range Hin.
    destruct (fits_request _ _ _ (read_from_sheets_requests range sid w past)
                           Hin) as (P & HP & HPr).
    apply elem_of_cons in HP as [HP|HP]; [|now apply elem_of_nil in HP].
    injection HP as _ ->. exact HPr.
Qed.

Lemma create_sheets_header_requests w :
  traces w create_sheets_header
    (fun evs => fits evs
       [(spreadsheets_get,
         fun r => r = SpreadsheetsGet (configured_spreadsheet w None));
        (values_update,
         fun r => ∃ range,
           r = ValuesUpdate (configured_spreadsheet w None) range
                            (utf8 "RAW") [header_row]
           ∧ range_from None (utf8 "!A1") range)]).
Proof.
  unfold create_sheets_header, get_sheets_client. cbv zeta.
  apply calls_try; [|intros e; apply traces_ret; reflexivity].
  apply (calls_bind _ _ _ [_; _] []).
  - apply write_to_sheets_requests.
  - intros result. apply (calls_bind _ _ _ [] []).
    + apply SheetsClient_init_calls.
    + intros client. apply traces_ret, fits_nil_any.
Qed.

(** X13: [create_sheets_header] never appends and never reads values; the
    one update it may make writes exactly the header row, entered [RAW],
    to the configured spreadsheet, at the cell [A1] of a worksheet title
    it has asked the service for. *)
Theorem create_sheets_header_writes_header_once
    (w : world) (past : list event) :
  calls values_append (snd (create_sheets_header w past)) = 0
  ∧ calls values_get (snd (create_sheets_header w past)) = 0
  ∧ calls values_update (snd (create_sheets_header w past)) ≤ 1
  ∧ calls spreadsheets_get (snd (create_sheets_header w past)) ≤ 1
  ∧ (∀ sid rng vio values,
       EvRemote (ValuesUpdate sid rng vio values)
         ∈ snd (create_sheets_header w past) →
       values = [header_row] ∧ vio = utf8 "RAW"
       ∧ sid = configured_spreadsheet w None
       ∧ ∃ title, rng = title ++ utf8 "!A1").
Proof.
  pose proof (create_sheets_header_requests w past) as Hfits.
  split; [|split; [|split; [|split]]].
  - pose proof (fits_calls _ _ values_append Hfits) as Hle.
    change (count_endpoint values_append _) with 0 in Hle. lia.
  - pose proof (fits_calls _ _ values_get Hfits) as Hle.
    change (count_endpoint values_get _) with 0 in Hle. lia.
  - pose proof (fits_calls _ _ values_update Hfits) as Hle.
    change (count_endpoint values_update _) with 1 in Hle. lia.
  - pose proof (fits_calls _ _ spreadsheets_get Hfits) as Hle.
    change (count_endpoint spreadsheets_get _) with 1 in Hle. lia.
  - intros sid rng vio values Hin.
    destruct (fits_request _ _ _ Hfits Hin) as (P & HP & HPr).
    apply elem_of_cons in HP as [HP|HP]; [discriminate|].
    apply elem_of_cons in HP as [HP|HP]; [|now apply elem_of_nil in HP].
    injection HP as ->. destruct HPr as (range & [= -> -> -> ->] & Hrange).
    repeat split; auto.
Qed.

(** X14: [get_sheet_url] calls no endpoint: at most it opens the
    service-account file named by [GOOGLE_SERVICE_ACCOUNT_FILE]. *)
Theorem get_sheet_url_calls_no_service (w : world) (past : list event) :
  (∀ ep, calls ep (snd (get_sheet_url w past)) = 0)
  ∧ (snd (get_sheet_url w past) = []
     ∨ ∃ file,
         environ w !! utf8 "GOOGLE_SERVICE_ACCOUNT_FILE" = Some file
         ∧ snd (get_sheet_url w past) = [EvServiceAccountFile file]).
Proof.
  unfold get_sheet_url, get_sheets_client. rewrite run_try, run_bind.
  rewrite SheetsClient_init_run. cbv zeta. unfold py_or. cbn [truthy].
  destruct (negb (truthy (environ w !! utf8 "GOOGLE_SPREADSHEET_ID"))).
  { cbn. auto. }
  destruct (environ w !! utf8 "GOOGLE_SERVICE_ACCOUNT_FILE") as [[|c file]|];
    cbn; auto.
  destruct (service_account w (c :: file)); cbn.
  - split; [reflexivity|]. right. eauto.
  - split; [reflexivity|]. right. eauto.
Qed.

(** ** Failures while sending *)

Lemma recipient_step {B} w past (to_email : option pystr)
    (k : option pystr → M B) :
  bind (if negb (truthy to_email) then getenv (utf8 "GMAIL_TO")
        else ret to_email) k w past
  = k (py_or to_email (environ w !! utf8 "GMAIL_TO")) w past.
Proof.
  apply bind_read. unfold py_or.
  destruct (truthy to_email); [apply reads_ret|apply reads_getenv].
Qed.

(** X15: when there is a recipient and [get_gmail_service] fails,
    [send_news_email] returns the failure dictionary of that exception and
    sends nothing. *)
Theorem failed_login_sends_nothing
    (w : world) (past : list event) (e : exn)
    (articles : list (gmap pystr pyval))
    (to_email subject time_window sheet_url : option pystr) :
  truthy (py_or to_email (environ w !! utf8 "GMAIL_TO")) = true →
  fst (get_gmail_service w past) = Raise e →
  fst (send_news_email articles to_email subject time_window sheet_url
                       w past) = Ret (failure e)
  ∧ calls messages_send
          (snd (send_news_email articles to_email subject time_window
                                sheet_url w past)) = 0.
Proof.
  intros Hto Hservice. unfold send_news_email.
  rewrite recipient_step, Hto. cbn [negb].
  rewrite run_try, run_bind.
  pose proof (fits_calls _ _ messages_send (get_gmail_service_calls w past))
    as Hnone.
  change (count_endpoint messages_send _) with 0 in Hnone.
  destruct (get_gmail_service w past) as [r ev]. cbn in Hservice, Hnone.
  subst r. cbn. rewrite app_nil_r. split; [reflexivity|lia].
Qed.

Lemma failed_login_sends_nothing_witness :
  fst (send_news_email [∅] None None None None broken_token_world [])
  = Ret (failure (Exn OtherError (utf8 "unpickling failed")))
  ∧ calls messages_send
          (snd (send_news_email [∅] None None None None
                                broken_token_world [])) = 0.
Proof.
  apply failed_login_sends_nothing; vm_compute; reflexivity.
Defined.


